(** * pyspectro: the USB2000 viewer (usb2000.py)

    A shallow embedding of the acquisition, averaging, capture and export
    code of [class USB2000], and the properties of it that the design
    document states.

    Conventions.
    - A Python [int] is a [Z].
    - A reading (a float64 of numpy) is a [float], the binary64 numbers
      of the kernel: a sum and a quotient are rounded as the processor
      rounds them.
    - A method that can let an exception escape returns an [outcome];
      a method whose body is one [try ... except Exception] returns the
      next state.
    - The device ([seabreeze]'s [Spectrometer]), the built-in [int] that
      reads the text of a field, the text of a float ([str]) and the
      file dialog are outside the repository: the device is a record of
      what it answers, [int] and [str] are variables of their sections,
      the dialog's answer is an argument. *)

From Stdlib Require Import List ZArith QArith Qreduction String Ascii Bool Lia.
From Stdlib Require Import DecimalString PrimFloat SpecFloat FloatOps Uint63.
Import ListNotations.

Local Open Scope Z_scope.

(* ================================================================== *)
(** * Text *)
(* ================================================================== *)

Module Text.

Local Open Scope string_scope.

Definition LF : ascii := "010"%char.
Definition CR : ascii := "013"%char.
Definition QUOTE : ascii := "034"%char.
Definition COMMA : ascii := ","%char.

Definition CRLF : string := String CR (String LF EmptyString).

Fixpoint rev_onto (s acc : string) : string :=
  match s with
  | EmptyString => acc
  | String c r => rev_onto r (String c acc)
  end.

Definition reverse (s : string) : string := rev_onto s EmptyString.

Fixpoint contains (p : ascii -> bool) (s : string) : bool :=
  match s with
  | EmptyString => false
  | String c r => p c || contains p r
  end.

Fixpoint join (sep : string) (parts : list string) : string :=
  match parts with
  | [] => EmptyString
  | [x] => x
  | x :: rest => x ++ sep ++ join sep rest
  end.

(** The white space [int] drops around an ASCII text: tab .. carriage
    return, and the space. *)
Definition isspace (c : ascii) : bool :=
  let n := nat_of_ascii c in
  ((9 <=? n) && (n <=? 13) || (n =? 32))%nat.

Fixpoint lstrip (s : string) : string :=
  match s with
  | EmptyString => EmptyString
  | String c r => if isspace c then lstrip r else s
  end.

Definition strip (s : string) : string :=
  reverse (lstrip (reverse (lstrip s))).

Definition digit_value (c : ascii) : option Z :=
  let n := nat_of_ascii c in
  if ((48 <=? n) && (n <=? 57))%nat then Some (Z.of_nat n - 48) else None.

(** The digits of a decimal literal: one or more digits, a single
    underscore allowed between two digits. *)
Fixpoint digits (s : string) (acc : Z) (after_digit : bool) : option Z :=
  match s with
  | EmptyString => if after_digit then Some acc else None
  | String c r =>
      match digit_value c with
      | Some d => digits r (10 * acc + d) true
      | None =>
          if Ascii.eqb c "_" && after_digit then digits r acc false else None
      end
  end.

(** A reading of [int(text)] for the examples, right for a short text
    of ASCII characters: surrounding white space is dropped, then an
    optional sign and a decimal literal.  [None] stands for
    [ValueError].  The methods below do not use it: they take [int] as a
    variable. *)
Definition int (text : string) : option Z :=
  match strip text with
  | String "-" r => option_map Z.opp (digits r 0 false)
  | String "+" r => digits r 0 false
  | s => digits s 0 false
  end.

(** [str(n)] of an [int]. *)
Definition str_int (n : Z) : string := NilZero.string_of_int (Z.to_int n).

(** Universal newlines: the lines of a text, a line ending at LF, at CR
    or at CR LF; a last line needs no terminator. *)
Fixpoint lines_from (cur : string) (s : string) : list string :=
  match s with
  | EmptyString => if String.eqb cur "" then [] else [reverse cur]
  | String c r =>
      if Ascii.eqb c LF then reverse cur :: lines_from "" r
      else if Ascii.eqb c CR then
        match r with
        | String c' r' =>
            if Ascii.eqb c' LF then reverse cur :: lines_from "" r'
            else reverse cur :: lines_from "" r
        | EmptyString => [reverse cur]
        end
      else lines_from (String c cur) r
  end.

Definition splitlines (s : string) : list string := lines_from "" s.

End Text.

(* ================================================================== *)
(** * The [csv] writer, dialect [excel] *)
(* ================================================================== *)

Module Csv.

Import Text.
Local Open Scope string_scope.

(** QUOTE_MINIMAL: a field is quoted when it holds the delimiter, the
    quote character or a character of the line terminator. *)
Definition special (c : ascii) : bool :=
  Ascii.eqb c COMMA || Ascii.eqb c QUOTE || Ascii.eqb c CR || Ascii.eqb c LF.

Definition needs_quoting (field : string) : bool := contains special field.

Fixpoint double_quotes (s : string) : string :=
  match s with
  | EmptyString => EmptyString
  | String c r =>
      if Ascii.eqb c QUOTE then String QUOTE (String QUOTE (double_quotes r))
      else String c (double_quotes r)
  end.

Definition field (s : string) : string :=
  if needs_quoting s
  then String QUOTE (double_quotes s ++ String QUOTE EmptyString)
  else s.

(** [writer.writerow(fields)]: the text appended to the file.  The line
    terminator of the dialect is CR LF, and the file is opened with
    [newline=""], which writes it as it is. *)
Definition writerow (fields : list string) : string :=
  join "," (map field fields) ++ CRLF.

End Csv.

(* ================================================================== *)
(** * Exceptions *)
(* ================================================================== *)

(** The exceptions the methods meet.  [DeviceError] is any exception of
    the driver: no device found, a rejected setting, a failed read. *)
Inductive exn : Type :=
| AttributeError
| ValueError
| IndexError
| DeviceError.

(* ================================================================== *)
(** * [numpy]: the mean over axis 0 *)
(* ================================================================== *)

(** A one-dimensional array of readings. *)
Definition ndarray : Type := list float.

Module Numpy.

(** Elementwise sum of two rows of one length, each sum rounded. *)
Fixpoint add (a b : ndarray) : ndarray :=
  match a, b with
  | x :: a', y :: b' => PrimFloat.add x y :: add a' b'
  | _, _ => []
  end.

Definition zeros (n : nat) : ndarray := repeat 0%float n.

(** The rows of a list make a two-dimensional array only when they all
    have the length of the first. *)
Definition same_shape (first : ndarray) (rest : list ndarray) : bool :=
  forallb (fun r => Nat.eqb (List.length r) (List.length first)) rest.

(** The number of rows, as the float the sum is divided by. *)
Definition count (n : nat) : float :=
  PrimFloat.of_uint63 (Uint63.of_Z (Z.of_nat n)).

(** [np.mean(first :: rest, axis=0)].  The reduction [add.reduce] over
    axis 0 starts from the identity of [add], a row of zeros, and adds
    the rows to it one after the other (numpy sums pairwise only along
    the axis that is contiguous in memory, which axis 0 is not for rows
    of two values or more); the sum row is then divided by the number of
    rows.  Rows of different lengths make no array: [ValueError]. *)
Definition mean_axis0 (first : ndarray) (rest : list ndarray)
  : exn + ndarray :=
  if same_shape first rest
  then inr (map (fun x => PrimFloat.div x (count (S (List.length rest))))
                (fold_left add (first :: rest)
                   (zeros (List.length first))))
  else inl ValueError.

End Numpy.

(* ================================================================== *)
(** * The device *)
(* ================================================================== *)

(** What a [seabreeze] spectrometer answers.  [readout k] is the answer
    to the [k]-th call of [intensities()] since the device was opened,
    [None] when that call raises; [reads] counts the calls made. *)
Record Spectrometer : Type := {
  model : string;
  calibration : option ndarray;
  accepts : Z -> bool;
  exposure_us : Z;
  readout : nat -> option ndarray;
  reads : nat
}.

Module Device.

(** [wavelengths()]: the calibration, or an exception. *)
Definition wavelengths (d : Spectrometer) : option ndarray := calibration d.

(** [integration_time_micros(us)]: a value the device does not accept
    raises and changes nothing. *)
Definition integration_time_micros (us : Z) (d : Spectrometer)
  : option Spectrometer :=
  if accepts d us
  then Some (Build_Spectrometer (model d) (calibration d) (accepts d) us
               (readout d) (reads d))
  else None.

(** [intensities()]: one scan or an exception, and the device after the
    call. *)
Definition intensities (d : Spectrometer) : option ndarray * Spectrometer :=
  (readout d (reads d),
   Build_Spectrometer (model d) (calibration d) (accepts d) (exposure_us d)
     (readout d) (S (reads d))).

End Device.

(* ================================================================== *)
(** * [class USB2000]: the attributes *)
(* ================================================================== *)

(** The attributes of [__init__], the widgets the methods read or set
    (the two line edits by their text, the label by its text, a button
    by whether it is enabled, the plot by the data it shows), what was
    printed, and the files on disk. *)
Record USB2000 : Type := {
  integration_time_us : Z;
  spec : option Spectrometer;
  initialized : bool;
  wavelengths : ndarray;
  intensities : list ndarray;
  averaged_intensities : ndarray;
  scans_to_average : Z;
  capturing : bool;
  integration_time_edit : string;
  scans_to_average_edit : string;
  status_label : string;
  connect_button : bool;
  start_capture_button : bool;
  stop_capture_button : bool;
  plot : ndarray * ndarray;
  stdout : list exn;
  files : list (string * string)
}.

Definition set_integration_time_us (v : Z) (s : USB2000) : USB2000 :=
  Build_USB2000 v (spec s) (initialized s) (wavelengths s) (intensities s)
    (averaged_intensities s) (scans_to_average s) (capturing s)
    (integration_time_edit s) (scans_to_average_edit s) (status_label s)
    (connect_button s) (start_capture_button s) (stop_capture_button s)
    (plot s) (stdout s) (files s).

Definition set_spec (v : option Spectrometer) (s : USB2000) : USB2000 :=
  Build_USB2000 (integration_time_us s) v (initialized s) (wavelengths s)
    (intensities s) (averaged_intensities s) (scans_to_average s)
    (capturing s) (integration_time_edit s) (scans_to_average_edit s)
    (status_label s) (connect_button s) (start_capture_button s)
    (stop_capture_button s) (plot s) (stdout s) (files s).

Definition set_initialized (v : bool) (s : USB2000) : USB2000 :=
  Build_USB2000 (integration_time_us s) (spec s) v (wavelengths s)
    (intensities s) (averaged_intensities s) (scans_to_average s)
    (capturing s) (integration_time_edit s) (scans_to_average_edit s)
    (status_label s) (connect_button s) (start_capture_button s)
    (stop_capture_button s) (plot s) (stdout s) (files s).

Definition set_wavelengths (v : ndarray) (s : USB2000) : USB2000 :=
  Build_USB2000 (integration_time_us s) (spec s) (initialized s) v
    (intensities s) (averaged_intensities s) (scans_to_average s)
    (capturing s) (integration_time_edit s) (scans_to_average_edit s)
    (status_label s) (connect_button s) (start_capture_button s)
    (stop_capture_button s) (plot s) (stdout s) (files s).

Definition set_intensities (v : list ndarray) (s : USB2000) : USB2000 :=
  Build_USB2000 (integration_time_us s) (spec s) (initialized s)
    (wavelengths s) v (averaged_intensities s) (scans_to_average s)
    (capturing s) (integration_time_edit s) (scans_to_average_edit s)
    (status_label s) (connect_button s) (start_capture_button s)
    (stop_capture_button s) (plot s) (stdout s) (files s).

Definition set_averaged_intensities (v : ndarray) (s : USB2000) : USB2000 :=
  Build_USB2000 (integration_time_us s) (spec s) (initialized s)
    (wavelengths s) (intensities s) v (scans_to_average s) (capturing s)
    (integration_time_edit s) (scans_to_average_edit s) (status_label s)
    (connect_button s) (start_capture_button s) (stop_capture_button s)
    (plot s) (stdout s) (files s).

Definition set_scans_to_average (v : Z) (s : USB2000) : USB2000 :=
  Build_USB2000 (integration_time_us s) (spec s) (initialized s)
    (wavelengths s) (intensities s) (averaged_intensities s) v (capturing s)
    (integration_time_edit s) (scans_to_average_edit s) (status_label s)
    (connect_button s) (start_capture_button s) (stop_capture_button s)
    (plot s) (stdout s) (files s).

Definition set_capturing (v : bool) (s : USB2000) : USB2000 :=
  Build_USB2000 (integration_time_us s) (spec s) (initialized s)
    (wavelengths s) (intensities s) (averaged_intensities s)
    (scans_to_average s) v (integration_time_edit s)
    (scans_to_average_edit s) (status_label s) (connect_button s)
    (start_capture_button s) (stop_capture_button s) (plot s) (stdout s)
    (files s).

Definition set_integration_time_edit (v : string) (s : USB2000) : USB2000 :=
  Build_USB2000 (integration_time_us s) (spec s) (initialized s)
    (wavelengths s) (intensities s) (averaged_intensities s)
    (scans_to_average s) (capturing s) v (scans_to_average_edit s)
    (status_label s) (connect_button s) (start_capture_button s)
    (stop_capture_button s) (plot s) (stdout s) (files s).

Definition set_scans_to_average_edit (v : string) (s : USB2000) : USB2000 :=
  Build_USB2000 (integration_time_us s) (spec s) (initialized s)
    (wavelengths s) (intensities s) (averaged_intensities s)
    (scans_to_average s) (capturing s) (integration_time_edit s) v
    (status_label s) (connect_button s) (start_capture_button s)
    (stop_capture_button s) (plot s) (stdout s) (files s).

Definition set_status_label (v : string) (s : USB2000) : USB2000 :=
  Build_USB2000 (integration_time_us s) (spec s) (initialized s)
    (wavelengths s) (intensities s) (averaged_intensities s)
    (scans_to_average s) (capturing s) (integration_time_edit s)
    (scans_to_average_edit s) v (connect_button s) (start_capture_button s)
    (stop_capture_button s) (plot s) (stdout s) (files s).

Definition set_connect_button (v : bool) (s : USB2000) : USB2000 :=
  Build_USB2000 (integration_time_us s) (spec s) (initialized s)
    (wavelengths s) (intensities s) (averaged_intensities s)
    (scans_to_average s) (capturing s) (integration_time_edit s)
    (scans_to_average_edit s) (status_label s) v (start_capture_button s)
    (stop_capture_button s) (plot s) (stdout s) (files s).

Definition set_start_capture_button (v : bool) (s : USB2000) : USB2000 :=
  Build_USB2000 (integration_time_us s) (spec s) (initialized s)
    (wavelengths s) (intensities s) (averaged_intensities s)
    (scans_to_average s) (capturing s) (integration_time_edit s)
    (scans_to_average_edit s) (status_label s) (connect_button s) v
    (stop_capture_button s) (plot s) (stdout s) (files s).

Definition set_stop_capture_button (v : bool) (s : USB2000) : USB2000 :=
  Build_USB2000 (integration_time_us s) (spec s) (initialized s)
    (wavelengths s) (intensities s) (averaged_intensities s)
    (scans_to_average s) (capturing s) (integration_time_edit s)
    (scans_to_average_edit s) (status_label s) (connect_button s)
    (start_capture_button s) v (plot s) (stdout s) (files s).

Definition set_plot (v : ndarray * ndarray) (s : USB2000) : USB2000 :=
  Build_USB2000 (integration_time_us s) (spec s) (initialized s)
    (wavelengths s) (intensities s) (averaged_intensities s)
    (scans_to_average s) (capturing s) (integration_time_edit s)
    (scans_to_average_edit s) (status_label s) (connect_button s)
    (start_capture_button s) (stop_capture_button s) v (stdout s) (files s).

Definition set_stdout (v : list exn) (s : USB2000) : USB2000 :=
  Build_USB2000 (integration_time_us s) (spec s) (initialized s)
    (wavelengths s) (intensities s) (averaged_intensities s)
    (scans_to_average s) (capturing s) (integration_time_edit s)
    (scans_to_average_edit s) (status_label s) (connect_button s)
    (start_capture_button s) (stop_capture_button s) (plot s) v (files s).

Definition set_files (v : list (string * string)) (s : USB2000) : USB2000 :=
  Build_USB2000 (integration_time_us s) (spec s) (initialized s)
    (wavelengths s) (intensities s) (averaged_intensities s)
    (scans_to_average s) (capturing s) (integration_time_edit s)
    (scans_to_average_edit s) (status_label s) (connect_button s)
    (start_capture_button s) (stop_capture_button s) (plot s) (stdout s) v.

(** [USB2000.__init__], on a disk that holds [disk]. *)
Definition init (disk : list (string * string)) : USB2000 := {|
  integration_time_us := 20000;
  spec := None;
  initialized := false;
  wavelengths := [];
  intensities := [];
  averaged_intensities := [];
  scans_to_average := 4;
  capturing := false;
  integration_time_edit := Text.str_int 20000;
  scans_to_average_edit := Text.str_int 4;
  status_label := "STATUS: No device connected";
  connect_button := true;
  start_capture_button := false;
  stop_capture_button := false;
  plot := ([0%float], [0%float]);
  stdout := [];
  files := disk
|}.

(** What a method gives back to the event loop: it returns, or an
    exception escapes it; either way the object is in some state. *)
Inductive outcome : Type :=
| Returns (s : USB2000)
| Raises (e : exn) (s : USB2000).

Definition state_of (o : outcome) : USB2000 :=
  match o with
  | Returns s => s
  | Raises _ s => s
  end.

Definition map_outcome (f : USB2000 -> USB2000) (o : outcome) : outcome :=
  match o with
  | Returns s => Returns (f s)
  | Raises e s => Raises e (f s)
  end.

(** [print(e)]. *)
Definition print (e : exn) (s : USB2000) : USB2000 :=
  set_stdout (stdout s ++ [e]) s.

(** [x is None] for an attribute that holds a list. *)
Definition is_None {A : Type} (x : list A) : bool := false.

(* ================================================================== *)
(** * Acquisition and averaging *)
(* ================================================================== *)

(** One turn of the loop of [read_spectrum]: a scan is appended, or the
    exception is printed and the loop goes on. *)
Definition acquire (s : USB2000) : USB2000 :=
  match spec s with
  | None => print AttributeError s
  | Some d =>
      let (answer, d') := Device.intensities d in
      let s' := set_spec (Some d') s in
      match answer with
      | Some scan => set_intensities (intensities s' ++ [scan]) s'
      | None => print DeviceError s'
      end
  end.

Fixpoint acquire_loop (n : nat) (s : USB2000) : USB2000 :=
  match n with
  | O => s
  | S n' => acquire_loop n' (acquire s)
  end.

(** The end of [read_spectrum], after the loop: the mean when a scan was
    read, nothing otherwise. *)
Definition average (s : USB2000) : outcome :=
  match intensities s with
  | [] => Returns s
  | first :: rest =>
      match Numpy.mean_axis0 first rest with
      | inr m => Returns (set_intensities [] (set_averaged_intensities m s))
      | inl e => Raises e s
      end
  end.

(** [range(n)] runs [n] times, and not at all when [n <= 0]. *)
Definition range_length (n : Z) : nat := Z.to_nat n.

Definition read_spectrum (s : USB2000) : outcome :=
  let s0 := set_intensities [] s in
  average (acquire_loop (range_length (scans_to_average s0)) s0).

(** The timer's tick. *)
Definition update (s : USB2000) : outcome :=
  if capturing s then
    if initialized s then
      match read_spectrum s with
      | Returns s' =>
          Returns (set_plot (wavelengths s', averaged_intensities s') s')
      | Raises e s' => Raises e s'
      end
    else Returns s
  else Returns s.

(* ================================================================== *)
(** * Connection and settings *)
(* ================================================================== *)

Local Open Scope string_scope.

Definition no_device (e : exn) (s : USB2000) : USB2000 :=
  set_status_label "No device detected" (print e s).

(** [init_spectrometer]; [found] is what [from_first_available()] finds,
    [None] when it raises. *)
Definition init_spectrometer (found : option Spectrometer) (s : USB2000)
  : USB2000 :=
  match found with
  | None => no_device DeviceError s
  | Some d =>
      let s1 := set_spec (Some d) s in
      match Device.integration_time_micros (integration_time_us s1) d with
      | None => no_device DeviceError s1
      | Some d1 =>
          let s2 := set_spec (Some d1) s1 in
          match Device.wavelengths d1 with
          | None => no_device DeviceError s2
          | Some w =>
              let s3 := set_wavelengths w s2 in
              match w with
              | [] => no_device IndexError s3
              | _ :: _ =>
                  set_start_capture_button true
                    (set_connect_button false
                       (set_status_label ("Device initialized: " ++ model d1)
                          (set_initialized true s3)))
              end
          end
      end
  end.

Section Settings.

(** [int(text)] of Python: the integer a text denotes, [None] when it
    denotes none ([ValueError]). *)
Variable int : string -> option Z.

Definition update_integration_time (s : USB2000) : USB2000 :=
  match int (integration_time_edit s) with
  | None => print ValueError s
  | Some us =>
      let s1 := set_integration_time_us us s in
      match spec s1 with
      | None => print AttributeError s1
      | Some d =>
          match Device.integration_time_micros us d with
          | Some d1 => set_spec (Some d1) s1
          | None => print DeviceError s1
          end
      end
  end.

Definition update_scans_to_average (s : USB2000) : USB2000 :=
  match int (scans_to_average_edit s) with
  | None => print ValueError s
  | Some n => set_scans_to_average n s
  end.

End Settings.

Definition start_capture (s : USB2000) : USB2000 :=
  set_stop_capture_button true
    (set_start_capture_button false (set_capturing true s)).

Definition stop_capture (s : USB2000) : USB2000 :=
  set_stop_capture_button false
    (set_start_capture_button true (set_capturing false s)).

(* ================================================================== *)
(** * Export *)
(* ================================================================== *)

(** [open(filename, "w")] and the close at the end of the [with] block:
    the file holds what was written, whatever it held before. *)
Definition write_file (filename content : string) (s : USB2000) : USB2000 :=
  set_files
    ((filename, content)
       :: filter (fun f => negb (String.eqb (fst f) filename)) (files s))
    s.

Definition read_file (filename : string) (s : USB2000) : option string :=
  option_map snd
    (find (fun f => String.eqb (fst f) filename) (files s)).

Section Exporter.

(** [str(x)] of a float: the text the [csv] writer gives a number. *)
Variable float_str : float -> string.

(** The loop over [range(len(self.wavelengths))], [f] the text written
    so far.  An index past the end of a list raises [IndexError]. *)
Fixpoint write_rows (indices : list nat) (ws avg : ndarray) (f : string)
  : string * option exn :=
  match indices with
  | [] => (f, None)
  | i :: rest =>
      match nth_error ws i, nth_error avg i with
      | Some w, Some a =>
          write_rows rest ws avg
            (f ++ Csv.writerow [float_str w; float_str a])
      | _, _ => (f, Some IndexError)
      end
  end.

(** [export_data]; [filename] is the answer of the save dialog, empty
    when the dialog is cancelled. *)
Definition export_data (filename : string) (s : USB2000) : outcome :=
  if is_None (intensities s) then
    Returns (set_status_label "ERROR: No data to export" s)
  else if String.eqb filename "" then
    Returns (set_status_label "ERROR: No file selected" s)
  else
    let header := Csv.writerow ["Wavelength"; "Intensity"] in
    match write_rows (seq 0 (List.length (wavelengths s))) (wavelengths s)
            (averaged_intensities s) header with
    | (f, None) =>
        Returns (set_status_label ("INFO: Data exported to " ++ filename)
                   (write_file filename f s))
    | (f, Some e) => Raises e (write_file filename f s)
    end.

End Exporter.

(* ================================================================== *)
(** * The operator's session *)
(* ================================================================== *)

Section Session.

Variable int : string -> option Z.
Variable float_str : float -> string.

(** What the event loop delivers: a tick of the timer, a click on a
    button, the end of an edit with the text of the field.  A disabled
    button delivers nothing. *)
Inductive event : Type :=
| Tick
| ClickConnect (found : option Spectrometer)
| CommitIntegrationTime (text : string)
| CommitScansToAverage (text : string)
| ClickStartCapture
| ClickStopCapture
| ClickExport (filename : string).

Definition handle (e : event) (s : USB2000) : USB2000 :=
  match e with
  | Tick => state_of (update s)
  | ClickConnect found =>
      if connect_button s then init_spectrometer found s else s
  | CommitIntegrationTime text =>
      update_integration_time int (set_integration_time_edit text s)
  | CommitScansToAverage text =>
      update_scans_to_average int (set_scans_to_average_edit text s)
  | ClickStartCapture =>
      if start_capture_button s then start_capture s else s
  | ClickStopCapture =>
      if stop_capture_button s then stop_capture s else s
  | ClickExport filename => state_of (export_data float_str filename s)
  end.

Definition run (events : list event) (s : USB2000) : USB2000 :=
  fold_left (fun s e => handle e s) events s.

End Session.

(** The three states of the capture state machine, read off the two
    flags. *)
Inductive capture_state : Type := Idle | Connected | Capturing.

Definition state (s : USB2000) : capture_state :=
  if initialized s then if capturing s then Capturing else Connected
  else Idle.

(* ================================================================== *)
(** * Vocabulary of the properties *)
(* ================================================================== *)

(** The answer to the [k]-th acquisition that starts in state [s]:
    without a device every attempt fails. *)
Definition answer (s : USB2000) (k : nat) : option ndarray :=
  match spec s with
  | None => None
  | Some d => readout d (reads d + k)
  end.

Definition answers (s : USB2000) (n : nat) : list (option ndarray) :=
  map (answer s) (seq 0 n).

Fixpoint successful (l : list (option ndarray)) : list ndarray :=
  match l with
  | [] => []
  | Some scan :: l' => scan :: successful l'
  | None :: l' => successful l'
  end.

Fixpoint failed (l : list (option ndarray)) : nat :=
  match l with
  | [] => O
  | Some _ :: l' => failed l'
  | None :: l' => S (failed l')
  end.

(** The exception a failed acquisition prints. *)
Definition failure (s : USB2000) : exn :=
  match spec s with
  | None => AttributeError
  | Some _ => DeviceError
  end.

(** The device after [n] more calls of [intensities()]. *)
Definition advance (n : nat) (o : option Spectrometer) : option Spectrometer :=
  match o with
  | None => None
  | Some d =>
      Some (Build_Spectrometer (model d) (calibration d) (accepts d)
              (exposure_us d) (readout d) (reads d + n))
  end.

(** The values of pixel [i] over a list of scans. *)
Definition column (i : nat) (scans : list ndarray) : list float :=
  map (fun scan => nth i scan 0%float) scans.

(** The mean of a list of numbers as binary64 computes it: the numbers
    are added to zero in order, each sum rounded, and the total is
    divided by how many they are, the quotient rounded. *)
Definition binary64_sum (xs : list float) : float :=
  fold_left PrimFloat.add xs 0%float.

Definition binary64_mean (xs : list float) : float :=
  PrimFloat.div (binary64_sum xs) (Numpy.count (List.length xs)).

(** The rational number a finite float is, and the arithmetic mean of a
    list of floats as a rational number. *)
Definition exact (x : float) : Q :=
  match Prim2SF x with
  | S754_finite s m e =>
      ((if s then -1 else 1) * inject_Z (Z.pos m) * Qpower 2 e)%Q
  | _ => 0%Q
  end.

Definition total (xs : list Q) : Q := fold_right Qplus 0%Q xs.

Definition arithmetic_mean (xs : list float) : Q :=
  (total (map exact xs) / inject_Z (Z.of_nat (List.length xs)))%Q.

(** The depth of a batch: how often the loop of [read_spectrum] runs. *)
Definition depth (s : USB2000) : nat := range_length (scans_to_average s).

(** A batch that [stop_capture] meets after [k] of its acquisitions. *)
Definition read_spectrum_stopped_after (k : nat) (s : USB2000) : outcome :=
  let s0 := set_intensities [] s in
  average (acquire_loop (depth s - k) (stop_capture (acquire_loop k s0))).

(** The text of a float that is a decimal fraction with few digits, for
    which [str] gives the digits as they are: the integer part, a
    point, and the digits of the fraction, at least one.  It serves the
    examples. *)
Fixpoint fraction_digits (fuel : nat) (r d : Z) : string :=
  match fuel with
  | O => EmptyString
  | S fuel' =>
      String (ascii_of_nat (48 + Z.to_nat (10 * r / d)))
        (if Z.eqb ((10 * r) mod d) 0 then EmptyString
         else fraction_digits fuel' ((10 * r) mod d) d)
  end.

Definition decimal_str (x : float) : string :=
  let q := exact x in
  let n := Z.abs (Qnum q) in
  let d := Z.pos (Qden q) in
  (if Z.ltb (Qnum q) 0 then "-" else "")
    ++ Text.str_int (n / d) ++ "." ++ fraction_digits 17 (n mod d) d.

(** A text the [csv] writer leaves as it is. *)
Definition plain (text : string) : Prop := Csv.needs_quoting text = false.

(** The row of the file for one pixel. *)
Definition row (float_str : float -> string) (p : float * float) : string :=
  float_str (fst p) ++ "," ++ float_str (snd p).

(** A commit whose text, when it is an integer, is a positive one. *)
Definition commits_positive (int : string -> option Z) (e : event) : Prop :=
  match e with
  | CommitIntegrationTime text | CommitScansToAverage text =>
      forall n, int text = Some n -> 0 < n
  | _ => True
  end.

(** A device for the examples: it answers the calls of [intensities()]
    from a script, takes an integration time of 1000 microseconds or
    more, and has the pixels [pixels]. *)
Definition bench (pixels : ndarray) (script : list (option ndarray))
  : Spectrometer := {|
  model := "USB2000";
  calibration := Some pixels;
  accepts := fun us => Z.leb 1000 us;
  exposure_us := 100000;
  readout := fun k => nth k script None;
  reads := 0
|}.

(** A session on the bench device, connected, and one that captures. *)
Definition connected_session (pixels : ndarray)
           (script : list (option ndarray)) : USB2000 :=
  init_spectrometer (Some (bench pixels script)) (init []).

Definition capturing_session (pixels : ndarray)
           (script : list (option ndarray)) : USB2000 :=
  start_capture (connected_session pixels script).

(** The scans of the scenario of the design document. *)
Definition scan_a : ndarray := [1; 2; 3]%float.
Definition scan_b : ndarray := [3; 4; 5]%float.
Definition scan_c : ndarray := [5; 6; 7]%float.
Definition three_pixels : ndarray := [330; 331; 332]%float.

(** The float nearest to one tenth, and the next float above it. *)
Definition tenth : float := 0x1.999999999999ap-4%float.
Definition above_tenth : float := 0x1.999999999999bp-4%float.

(** Three equal scans of two pixels, and a session of depth 3 that gets
    them. *)
Definition scan_tenth : ndarray := [tenth; 1%float].
Definition two_pixels : ndarray := [330; 331]%float.

Definition session_of_depth_3 : USB2000 :=
  set_scans_to_average 3
    (capturing_session two_pixels
       [Some scan_tenth; Some scan_tenth; Some scan_tenth]).

Definition scan_d : ndarray := [7; 8; 9]%float.

(** The flags, the buttons and the two settings of a session: what a
    tick and an export leave alone. *)
Definition same_controls (s s' : USB2000) : Prop :=
  initialized s' = initialized s
  /\ capturing s' = capturing s
  /\ connect_button s' = connect_button s
  /\ start_capture_button s' = start_capture_button s
  /\ stop_capture_button s' = stop_capture_button s
  /\ scans_to_average s' = scans_to_average s
  /\ integration_time_us s' = integration_time_us s.

(** The buttons follow the flags: Start is enabled in [Connected] and
    only there, Stop in [Capturing], Connect in [Idle]. *)
Definition gated (s : USB2000) : Prop :=
  start_capture_button s = initialized s && negb (capturing s)
  /\ stop_capture_button s = capturing s
  /\ connect_button s = negb (initialized s)
  /\ (capturing s = true -> initialized s = true).

Definition positive_settings (s : USB2000) : Prop :=
  0 < scans_to_average s /\ 0 < integration_time_us s.

(** The text of a file of lines, each ended by one CR LF. *)
Fixpoint file_of_lines (lines : list string) : string :=
  match lines with
  | [] => EmptyString
  | l :: rest => l ++ Text.CRLF ++ file_of_lines rest
  end.

Definition is_newline (c : ascii) : bool :=
  Ascii.eqb c Text.CR || Ascii.eqb c Text.LF.

(** The header of the exported file. *)
Definition header : string := "Wavelength,Intensity".

(* ================================================================== *)
(** * The cursor *)
(* ================================================================== *)

(** [int(x)] of a finite float, given as the rational number it is: the
    integer part, rounded towards zero. *)
Definition int_of_float (x : Q) : Z := Z.quot (Qnum x) (Z.pos (Qden x)).

Section Cursor.

(** ["{:.2f}".format(x)]: the text of a float with two decimals. *)
Variable format_2f : float -> string.

(** [mouse_moved]; [inside] says whether the position lies in the plot,
    [x] is the abscissa of the position in the coordinates of the view.
    The second component is the position the vertical line is set to,
    [None] when [setPos] is not reached. *)
Definition mouse_moved (inside : bool) (x : Q) (s : USB2000)
  : outcome * option Q :=
  if inside then
    let index := int_of_float x in
    if Z.ltb 0 index && Z.ltb index (Z.of_nat (List.length (wavelengths s)))
    then
      match nth_error (wavelengths s) (Z.to_nat index) with
      | Some w =>
          (Returns (set_status_label
                      ("Wavelength: " ++ format_2f w ++ " nm") s),
           Some x)
      | None => (Raises IndexError s, None)
      end
    else (Returns s, Some x)
  else (Returns s, None).

End Cursor.

(* ================================================================== *)
(** * More vocabulary *)
(* ================================================================== *)

(** Whether a connection attempt goes through: a device is found, it
    takes the stored integration time, and its calibration can be read
    and is not empty. *)
Definition connects (found : option Spectrometer) (us : Z) : bool :=
  match found with
  | None => false
  | Some d =>
      accepts d us
      && match calibration d with
         | Some (_ :: _) => true
         | _ => false
         end
  end.

(** An initialized session holds the device it read its wavelengths
    from. *)
Definition bound (s : USB2000) : Prop :=
  initialized s = true ->
  wavelengths s <> []
  /\ exists d, spec s = Some d /\ calibration d = Some (wavelengths s).

(** A device whose scans have the length of its calibration, and an
    event that brings no other device. *)
Definition well_formed (d : Spectrometer) : Prop :=
  forall (w : ndarray) (k : nat) (scan : ndarray),
    calibration d = Some w -> readout d k = Some scan ->
    List.length scan = List.length w.



(* ================================================================== *)
(** * The batch: what the loop of [read_spectrum] does *)
(* ================================================================== *)

Section Batch.

Lemma answer_acquire (s : USB2000) (k : nat) :
  answer (acquire s) k = answer s (S k).
Proof.
  unfold answer, acquire.
  destruct (spec s) as [d|] eqn:Hd; simpl.
  - destruct (readout d (reads d)); simpl; now rewrite Nat.add_succ_r.
  - now rewrite Hd.
Qed.

Lemma failure_acquire (s : USB2000) : failure (acquire s) = failure s.
Proof.
  unfold failure, acquire.
  destruct (spec s) as [d|] eqn:Hd; simpl.
  - now destruct (readout d (reads d)).
  - now rewrite Hd.
Qed.

Lemma answers_succ (s : USB2000) (n : nat) :
  answers s (S n) = answer s 0 :: answers (acquire s) n.
Proof.
  unfold answers. simpl. f_equal.
  rewrite <- seq_shift, map_map.
  apply map_ext. intro k. now rewrite answer_acquire.
Qed.

(** One turn of the loop, by the answer of the device. *)
Lemma acquire_eq (s : USB2000) :
  acquire s =
  match answer s 0 with
  | Some scan =>
      set_intensities (intensities s ++ [scan])%list
        (set_spec (advance 1 (spec s)) s)
  | None => print (failure s) (set_spec (advance 1 (spec s)) s)
  end.
Proof.
  unfold acquire, answer, failure.
  destruct s as [itu sp ini wl ints avg sta cap e1 e2 lbl b1 b2 b3 pl out fs].
  simpl. destruct sp as [d|]; simpl; [|reflexivity].
  rewrite !Nat.add_0_r, Nat.add_1_r.
  destruct (readout d (reads d)); reflexivity.
Qed.

(** The whole loop: the scans that were read are appended in order, one
    exception is printed per failure, the device has answered [n] calls,
    and nothing else has changed. *)
Lemma acquire_loop_eq (n : nat) (s : USB2000) :
  acquire_loop n s =
  set_stdout (stdout s ++ repeat (failure s) (failed (answers s n)))%list
    (set_intensities (intensities s ++ successful (answers s n))%list
       (set_spec (advance n (spec s)) s)).
Proof.
  revert s. induction n as [|n IH]; intro s.
  - destruct s as [itu sp ini wl ints avg sta cap e1 e2 lbl b1 b2 b3 pl out fs].
    unfold set_stdout, set_intensities, set_spec; simpl.
    rewrite !app_nil_r. f_equal.
    destruct sp as [d|]; simpl; [|reflexivity].
    rewrite Nat.add_0_r. now destruct d.
  - simpl acquire_loop. rewrite IH, answers_succ, failure_acquire.
    rewrite acquire_eq.
    destruct s as [itu sp ini wl ints avg sta cap e1 e2 lbl b1 b2 b3 pl out fs].
    destruct (answer _ 0) as [scan|]; simpl;
      unfold set_stdout, set_intensities, set_spec, print; simpl;
      rewrite <- ?app_assoc; simpl; f_equal;
      destruct sp as [d|]; simpl; try reflexivity;
      now rewrite <- Nat.add_assoc.
Qed.

Lemma acquire_loop_add (a b : nat) (s : USB2000) :
  acquire_loop (a + b) s = acquire_loop b (acquire_loop a s).
Proof.
  revert s. induction a as [|a IH]; intro s; simpl; [reflexivity|apply IH].
Qed.

Lemma acquire_stop_capture (s : USB2000) :
  acquire (stop_capture s) = stop_capture (acquire s).
Proof.
  unfold acquire, stop_capture; simpl.
  destruct (spec s) as [d|]; [|reflexivity].
  simpl. now destruct (readout d (reads d)).
Qed.

Lemma acquire_loop_stop_capture (n : nat) (s : USB2000) :
  acquire_loop n (stop_capture s) = stop_capture (acquire_loop n s).
Proof.
  revert s. induction n as [|n IH]; intro s; simpl; [reflexivity|].
  now rewrite acquire_stop_capture, IH.
Qed.

Lemma average_stop_capture (s : USB2000) :
  average (stop_capture s) = map_outcome stop_capture (average s).
Proof.
  unfold average; simpl.
  destruct (intensities s) as [|first rest]; [reflexivity|].
  now destruct (Numpy.mean_axis0 first rest).
Qed.

Lemma successful_length (l : list (option ndarray)) :
  (List.length (successful l) + failed l = List.length l)%nat.
Proof.
  induction l as [|[scan|] l IH]; simpl; lia.
Qed.

Lemma answers_length (s : USB2000) (n : nat) : List.length (answers s n) = n.
Proof. unfold answers. now rewrite length_map, length_seq. Qed.

Lemma successful_all (scans : list ndarray) :
  successful (map Some scans) = scans.
Proof. induction scans as [|x l IH]; simpl; congruence. Qed.

Lemma failed_all (scans : list ndarray) : failed (map Some scans) = O.
Proof. induction scans as [|x l IH]; simpl; congruence. Qed.

Lemma successful_none (l : list (option ndarray)) :
  Forall (fun a => a = None) l -> successful l = [].
Proof.
  induction 1 as [|a l Ha _ IH]; [reflexivity|]. subst a. exact IH.
Qed.

End Batch.

(* ================================================================== *)
(** * The mean over axis 0 is the mean of every column *)
(* ================================================================== *)

Section Mean.

Lemma add_length (a b : ndarray) :
  List.length b = List.length a -> List.length (Numpy.add a b) = List.length a.
Proof.
  revert b. induction a as [|x a IH]; intros [|y b] H; simpl in *;
    try discriminate; try reflexivity.
  f_equal. apply IH. congruence.
Qed.

Lemma add_nth (i : nat) (a b : ndarray) :
  List.length b = List.length a -> (i < List.length a)%nat ->
  nth i (Numpy.add a b) 0%float
  = PrimFloat.add (nth i a 0%float) (nth i b 0%float).
Proof.
  revert i b. induction a as [|x a IH]; intros i [|y b] H Hi; simpl in *;
    try discriminate; try lia.
  destruct i as [|i]; [reflexivity|]. apply IH; [congruence|lia].
Qed.

Lemma fold_add_length (rows : list ndarray) (acc : ndarray) :
  Forall (fun r => List.length r = List.length acc) rows ->
  List.length (fold_left Numpy.add rows acc) = List.length acc.
Proof.
  revert acc. induction rows as [|r rows IH]; intros acc H; simpl.
  - reflexivity.
  - inversion H as [|r' rows' Hr Hrows]; subst.
    rewrite IH; [now apply add_length|].
    rewrite add_length by assumption. exact Hrows.
Qed.

(** Adding rows to a row adds, at every index, the values of the column
    to the value of the row, in the order of the rows. *)
Lemma fold_add_nth (i : nat) (rows : list ndarray) (acc : ndarray) :
  (i < List.length acc)%nat ->
  Forall (fun r => List.length r = List.length acc) rows ->
  nth i (fold_left Numpy.add rows acc) 0%float
  = fold_left PrimFloat.add (column i rows) (nth i acc 0%float).
Proof.
  revert acc. induction rows as [|r rows IH]; intros acc Hi H; simpl.
  - reflexivity.
  - inversion H as [|r' rows' Hr Hrows]; subst.
    rewrite IH.
    + now rewrite add_nth.
    + now rewrite add_length.
    + rewrite add_length by assumption. exact Hrows.
Qed.

Lemma zeros_length (n : nat) : List.length (Numpy.zeros n) = n.
Proof. apply repeat_length. Qed.

Lemma zeros_nth (i n : nat) : nth i (Numpy.zeros n) 0%float = 0%float.
Proof. apply nth_repeat. Qed.

Lemma same_shape_true (n : nat) (first : ndarray) (rest : list ndarray) :
  Forall (fun r => List.length r = n) (first :: rest) ->
  Numpy.same_shape first rest = true.
Proof.
  intro H. inversion H as [|x l Hfirst Hrest]; subst.
  apply forallb_forall. intros r Hr. apply Nat.eqb_eq.
  rewrite Forall_forall in Hrest. now apply Hrest.
Qed.

Lemma nth_map_div (i : nat) (c : float) (l : ndarray) :
  (i < List.length l)%nat ->
  nth i (map (fun x => PrimFloat.div x c) l) 0%float
  = PrimFloat.div (nth i l 0%float) c.
Proof.
  intro Hi.
  rewrite (nth_indep _ 0%float (PrimFloat.div 0%float c))
    by now rewrite length_map.
  apply (map_nth (fun x => PrimFloat.div x c)).
Qed.

(** [np.mean(scans, axis=0)] of scans of one length [n]: an array of
    length [n] that holds, at every index, the binary64 mean of the
    scans' values at that index. *)
Lemma mean_axis0_spec (n : nat) (first : ndarray) (rest : list ndarray) :
  Forall (fun r => List.length r = n) (first :: rest) ->
  exists m,
    Numpy.mean_axis0 first rest = inr m
    /\ List.length m = n
    /\ forall i, (i < n)%nat ->
         nth i m 0%float = binary64_mean (column i (first :: rest)).
Proof.
  intro H. pose proof (same_shape_true n first rest H) as Hshape.
  assert (Hn : List.length first = n) by now inversion H.
  assert (Hrows : Forall (fun r => List.length r
                                   = List.length (Numpy.zeros n))
                    (first :: rest)).
  { rewrite zeros_length. exact H. }
  unfold Numpy.mean_axis0. rewrite Hshape, Hn.
  eexists. split; [reflexivity|]. split.
  - now rewrite length_map, fold_add_length, zeros_length.
  - intros i Hi.
    rewrite nth_map_div
      by (rewrite fold_add_length, zeros_length by assumption; exact Hi).
    rewrite fold_add_nth by (rewrite ?zeros_length; assumption).
    rewrite zeros_nth.
    unfold binary64_mean, binary64_sum, column.
    now rewrite length_map.
Qed.

End Mean.

(** The batch when a scan was read: every attempt is made, and the mean
    of the scans that were read replaces the averaged spectrum. *)
Lemma read_spectrum_some (s : USB2000) (n : nat)
      (first : ndarray) (rest : list ndarray) :
  successful (answers s (depth s)) = first :: rest ->
  Forall (fun scan => List.length scan = n) (first :: rest) ->
  exists m,
    read_spectrum s =
    Returns (set_intensities []
               (set_averaged_intensities m
                  (acquire_loop (depth s) (set_intensities [] s))))
    /\ List.length m = n
    /\ forall i, (i < n)%nat ->
         nth i m 0%float = binary64_mean (column i (first :: rest)).
Proof.
  intros Hscans Hlen.
  destruct (mean_axis0_spec n first rest Hlen) as (m & Hm & Hlm & Hnth).
  exists m. split; [|split; assumption].
  unfold read_spectrum, average.
  change (range_length (scans_to_average (set_intensities [] s)))
    with (depth s).
  rewrite acquire_loop_eq at 1.
  change (answers (set_intensities [] s) (depth s)) with (answers s (depth s)).
  cbn [intensities set_stdout set_intensities set_spec app].
  rewrite Hscans, Hm. reflexivity.
Qed.

(** The batch when no scan was read: nothing is averaged. *)
Lemma read_spectrum_none (s : USB2000) :
  successful (answers s (depth s)) = [] ->
  read_spectrum s = Returns (acquire_loop (depth s) (set_intensities [] s)).
Proof.
  intro Hnone. unfold read_spectrum, average.
  change (range_length (scans_to_average (set_intensities [] s)))
    with (depth s).
  rewrite acquire_loop_eq at 1.
  change (answers (set_intensities [] s) (depth s)) with (answers s (depth s)).
  cbn [intensities set_stdout set_intensities set_spec app].
  rewrite Hnone. reflexivity.
Qed.

(* ================================================================== *)
(** * Properties of the batch *)
(* ================================================================== *)

(** What [average] leaves alone: everything but the scans and the
    averaged spectrum. *)
Lemma average_frame (s : USB2000) :
  let s' := state_of (average s) in
  spec s' = spec s /\ stdout s' = stdout s /\ capturing s' = capturing s
  /\ wavelengths s' = wavelengths s /\ plot s' = plot s.
Proof.
  unfold average. destruct (intensities s) as [|first rest]; simpl.
  - repeat split.
  - destruct (Numpy.mean_axis0 first rest); simpl; repeat split.
Qed.

Lemma answers_none (s : USB2000) (n : nat) :
  (forall k, (k < n)%nat -> answer s k = None) ->
  Forall (fun a => a = None) (answers s n).
Proof.
  intro H. apply Forall_forall. intros a Ha.
  apply in_map_iff in Ha. destruct Ha as (k & <- & Hk).
  apply in_seq in Hk. apply H. lia.
Qed.

(** C1, as the claim states it, fails: the mean is computed in binary64,
    and a rounded sum divided by the depth need not be the arithmetic
    mean.  Three scans whose first pixel reads the float nearest to one
    tenth have that very float as the arithmetic mean of the pixel; the
    batch leaves the next float above it. *)
Lemma mean_of_three_equal_scans_is_rounded :
  exists s',
    read_spectrum session_of_depth_3 = Returns s'
    /\ answers session_of_depth_3 (depth session_of_depth_3)
       = map Some [scan_tenth; scan_tenth; scan_tenth]
    /\ nth 0 (averaged_intensities s') 0%float = above_tenth
    /\ (arithmetic_mean (column 0 [scan_tenth; scan_tenth; scan_tenth])
        == exact tenth)%Q
    /\ ~ (exact (nth 0 (averaged_intensities s') 0%float)
          == arithmetic_mean (column 0 [scan_tenth; scan_tenth; scan_tenth]))%Q.
Proof.
  eexists. split; [vm_compute; reflexivity|].
  split; [reflexivity|]. split; [reflexivity|]. split.
  - apply Qeq_bool_iff. vm_compute. reflexivity.
  - intro H. apply Qeq_bool_iff in H. vm_compute in H. discriminate H.
Qed.

(** C1, amended.  When every one of the [depth] acquisitions of a batch
    succeeds (the scans having the [n] pixels of the detector, two or
    more), [read_spectrum] returns, and the averaged spectrum it leaves
    has [n] values, the value at every pixel index [i] being the mean of
    the [depth] scans' values at [i] as binary64 computes it: the values
    added in the order of acquisition, each sum rounded, and the total
    divided by [depth], the quotient rounded. *)
Theorem read_spectrum_mean_of_all_scans :
  forall (s : USB2000) (scans : list ndarray) (n : nat),
    (0 < depth s)%nat ->
    (2 <= n)%nat ->
    answers s (depth s) = map Some scans ->
    Forall (fun scan => List.length scan = n) scans ->
    exists s',
      read_spectrum s = Returns s'
      /\ List.length scans = depth s
      /\ List.length (averaged_intensities s') = n
      /\ forall i, (i < n)%nat ->
           nth i (averaged_intensities s') 0%float
           = PrimFloat.div (binary64_sum (column i scans))
               (Numpy.count (depth s)).
Proof.
  intros s scans n Hdepth _ Hall Hlen.
  assert (Hcount : List.length scans = depth s).
  { rewrite <- (answers_length s (depth s)), Hall. now rewrite length_map. }
  destruct scans as [|first rest]; [simpl in Hcount; lia|].
  destruct (read_spectrum_some s n first rest) as (m & Hm & Hlm & Hnth).
  - now rewrite Hall, successful_all.
  - exact Hlen.
  - eexists. split; [exact Hm|]. split; [exact Hcount|]. split; [exact Hlm|].
    intros i Hi. cbn [averaged_intensities set_intensities
                      set_averaged_intensities].
    rewrite (Hnth i Hi). unfold binary64_mean, column.
    rewrite length_map. unfold ndarray in Hcount |- *.
    now rewrite Hcount.
Qed.

(** C2. When none of the [depth] acquisitions of a batch succeeds,
    [read_spectrum] returns (no exception escapes it) and the averaged
    spectrum, with its wavelengths and the plotted data, is what it was
    before the batch. *)
Theorem read_spectrum_keeps_average_without_scan :
  forall s : USB2000,
    (forall k, (k < depth s)%nat -> answer s k = None) ->
    exists s',
      read_spectrum s = Returns s'
      /\ averaged_intensities s' = averaged_intensities s
      /\ wavelengths s' = wavelengths s
      /\ plot s' = plot s.
Proof.
  intros s Hnone. eexists. split.
  - apply read_spectrum_none, successful_none, answers_none, Hnone.
  - rewrite acquire_loop_eq. repeat split.
Qed.

(** C3, as the claim states it, fails where C1 does: with depth 4, three
    scans whose first pixel reads the float nearest to one tenth and one
    failure, the arithmetic mean of the pixel over the scans read is
    that float, and the batch leaves the next float above it. *)
Lemma mean_of_successful_scans_is_rounded :
  exists s',
    read_spectrum
      (capturing_session two_pixels
         [Some scan_tenth; None; Some scan_tenth; Some scan_tenth])
    = Returns s'
    /\ successful
         (answers
            (capturing_session two_pixels
               [Some scan_tenth; None; Some scan_tenth; Some scan_tenth]) 4)
       = [scan_tenth; scan_tenth; scan_tenth]
    /\ nth 0 (averaged_intensities s') 0%float = above_tenth
    /\ (arithmetic_mean (column 0 [scan_tenth; scan_tenth; scan_tenth])
        == exact tenth)%Q
    /\ ~ (exact (nth 0 (averaged_intensities s') 0%float)
          == arithmetic_mean (column 0 [scan_tenth; scan_tenth; scan_tenth]))%Q.
Proof.
  eexists. split; [vm_compute; reflexivity|].
  split; [reflexivity|]. split; [reflexivity|]. split.
  - apply Qeq_bool_iff. vm_compute. reflexivity.
  - intro H. apply Qeq_bool_iff in H. vm_compute in H. discriminate H.
Qed.

(** C3, amended.  A failed acquisition is skipped and the batch goes on:
    whenever at least one scan is read (the scans having two pixels or
    more), [read_spectrum] returns after all [depth] attempts (the
    device has answered [depth] calls, one exception was printed per
    failure), and the averaged spectrum is the elementwise mean of the
    scans that were read, and of those only, as binary64 computes it:
    their values added in the order of acquisition and divided by their
    number, each operation rounded.  With depth 4, the scans [1,2,3],
    [3,4,5], [5,6,7] and one failure, wherever the failure falls, the
    result is [3,4,5] exactly. *)
Theorem read_spectrum_mean_of_successful_scans :
  (forall (s : USB2000) (first : ndarray) (rest : list ndarray) (n : nat),
      (2 <= n)%nat ->
      successful (answers s (depth s)) = first :: rest ->
      Forall (fun scan => List.length scan = n) (first :: rest) ->
      exists s',
        read_spectrum s = Returns s'
        /\ spec s' = advance (depth s) (spec s)
        /\ stdout s'
           = (stdout s
                ++ repeat (failure s) (failed (answers s (depth s))))%list
        /\ (List.length (first :: rest) + failed (answers s (depth s))
            = depth s)%nat
        /\ List.length (averaged_intensities s') = n
        /\ forall i, (i < n)%nat ->
             nth i (averaged_intensities s') 0%float
             = binary64_mean (column i (first :: rest)))
  /\ (forall script,
         In script
            [ [None; Some scan_a; Some scan_b; Some scan_c];
              [Some scan_a; None; Some scan_b; Some scan_c];
              [Some scan_a; Some scan_b; None; Some scan_c];
              [Some scan_a; Some scan_b; Some scan_c; None] ] ->
         depth (capturing_session three_pixels script) = 4%nat
         /\ exists s',
              read_spectrum (capturing_session three_pixels script)
              = Returns s'
              /\ averaged_intensities s' = [3; 4; 5]%float).
Proof.
  split.
  - intros s first rest n _ Hscans Hlen.
    destruct (read_spectrum_some s n first rest Hscans Hlen)
      as (m & Hm & Hlm & Hnth).
    assert (Hcount : (List.length (first :: rest)
                      + failed (answers s (depth s)) = depth s)%nat).
    { rewrite <- Hscans, successful_length. apply answers_length. }
    eexists. split; [exact Hm|].
    rewrite acquire_loop_eq.
    repeat split; try assumption; exact Hcount.
  - intros script Hin. simpl in Hin.
    repeat (destruct Hin as [<-|Hin];
            [split; [reflexivity|eexists; split; vm_compute; reflexivity]|]).
    contradiction.
Qed.

(** C5. [stop_capture] does not cut a batch short.  Let it fall after
    [k] of the [depth] acquisitions of a batch: the batch still makes
    the remaining [depth - k], so the device has answered exactly
    [depth] calls, every one of them a scan appended or an exception
    printed, and the batch ends as the uninterrupted batch does, the
    capture flag and the two buttons apart.  What [stop_capture] changes
    is the next tick: it starts no batch. *)
Theorem stop_capture_does_not_truncate_batch :
  forall (s : USB2000) (k : nat),
    (k <= depth s)%nat ->
    let o := read_spectrum_stopped_after k s in
    o = map_outcome stop_capture (read_spectrum s)
    /\ spec (state_of o) = advance (depth s) (spec s)
    /\ stdout (state_of o)
       = (stdout s ++ repeat (failure s) (failed (answers s (depth s))))%list
    /\ (List.length (successful (answers s (depth s)))
        + failed (answers s (depth s)) = depth s)%nat
    /\ capturing (state_of o) = false
    /\ update (state_of o) = Returns (state_of o).
Proof.
  intros s k Hk o.
  assert (Ho : o = map_outcome stop_capture (read_spectrum s)).
  { unfold o, read_spectrum_stopped_after, read_spectrum.
    rewrite acquire_loop_stop_capture, <- acquire_loop_add.
    replace (k + (depth s - k))%nat with (depth s) by lia.
    apply average_stop_capture. }
  assert (Hcap : capturing (state_of o) = false).
  { rewrite Ho. now destruct (read_spectrum s). }
  split; [exact Ho|].
  assert (Hframe : spec (state_of o) = spec (state_of (read_spectrum s))
                   /\ stdout (state_of o) = stdout (state_of (read_spectrum s))).
  { rewrite Ho. now destruct (read_spectrum s). }
  destruct Hframe as [-> ->].
  unfold read_spectrum.
  destruct (average_frame
              (acquire_loop (range_length (scans_to_average
                                             (set_intensities [] s)))
                 (set_intensities [] s))) as (Hs & Ho' & _).
  rewrite Hs, Ho', acquire_loop_eq. cbn.
  repeat split.
  - rewrite successful_length. apply answers_length.
  - exact Hcap.
  - unfold update. now rewrite Hcap.
Qed.

(** C10. A tick acquires only when both flags are set.  With the capture
    flag or the initialized flag down, in particular when capturing is
    true and the device was never initialized, [update] returns and the
    object is as it was: no acquisition, the wavelengths, the averaged
    spectrum and the flags untouched.  With both flags up it runs one
    batch, [depth] acquisitions. *)
Theorem update_acquires_only_when_capturing_and_initialized :
  forall s : USB2000,
    (capturing s && initialized s = false -> update s = Returns s)
    /\ (capturing s = true -> initialized s = false -> update s = Returns s)
    /\ (capturing s && initialized s = true ->
        spec (state_of (update s)) = advance (depth s) (spec s)).
Proof.
  intro s. unfold update.
  destruct (capturing s), (initialized s); simpl;
    repeat split; try reflexivity; try discriminate.
  intros _.
  assert (H : spec (state_of (read_spectrum s)) = advance (depth s) (spec s)).
  { unfold read_spectrum.
    destruct (average_frame
                (acquire_loop (range_length (scans_to_average
                                               (set_intensities [] s)))
                   (set_intensities [] s))) as (Hs & _).
    rewrite Hs, acquire_loop_eq. reflexivity. }
  destruct (read_spectrum s); exact H.
Qed.

Lemma read_spectrum_mean_of_all_scans_witness :
  exists s',
    read_spectrum
      (capturing_session three_pixels
         [Some scan_a; Some scan_b; Some scan_c; Some scan_d]) = Returns s'
    /\ List.length [scan_a; scan_b; scan_c; scan_d]
       = depth (capturing_session three_pixels
                  [Some scan_a; Some scan_b; Some scan_c; Some scan_d])
    /\ List.length (averaged_intensities s') = 3%nat
    /\ forall i, (i < 3)%nat ->
         nth i (averaged_intensities s') 0%float
         = PrimFloat.div
             (binary64_sum (column i [scan_a; scan_b; scan_c; scan_d]))
             (Numpy.count
                (depth (capturing_session three_pixels
                          [Some scan_a; Some scan_b; Some scan_c;
                           Some scan_d]))).
Proof.
  apply (read_spectrum_mean_of_all_scans
           (capturing_session three_pixels
              [Some scan_a; Some scan_b; Some scan_c; Some scan_d])
           [scan_a; scan_b; scan_c; scan_d] 3%nat).
  - vm_compute. lia.
  - lia.
  - reflexivity.
  - repeat constructor.
Defined.

Lemma read_spectrum_keeps_average_without_scan_witness :
  exists s',
    read_spectrum (capturing_session three_pixels [None; None; None; None])
    = Returns s'
    /\ averaged_intensities s'
       = averaged_intensities
           (capturing_session three_pixels [None; None; None; None])
    /\ wavelengths s'
       = wavelengths (capturing_session three_pixels [None; None; None; None])
    /\ plot s' = plot (capturing_session three_pixels [None; None; None; None]).
Proof.
  apply (read_spectrum_keeps_average_without_scan
           (capturing_session three_pixels [None; None; None; None])).
  intros k Hk. vm_compute in Hk.
  do 4 (destruct k as [|k]; [reflexivity|]). lia.
Defined.

Lemma read_spectrum_mean_of_successful_scans_witness :
  exists s',
    read_spectrum
      (capturing_session three_pixels
         [Some scan_a; None; Some scan_b; Some scan_c]) = Returns s'
    /\ stdout s' = [DeviceError]
    /\ forall i, (i < 3)%nat ->
         nth i (averaged_intensities s') 0%float
         = binary64_mean (column i [scan_a; scan_b; scan_c]).
Proof.
  destruct (proj1 read_spectrum_mean_of_successful_scans
              (capturing_session three_pixels
                 [Some scan_a; None; Some scan_b; Some scan_c])
              scan_a [scan_b; scan_c] 3%nat)
    as (s' & Hs' & _ & Hout & _ & _ & Hmean).
  - lia.
  - reflexivity.
  - repeat constructor.
  - exists s'. split; [exact Hs'|]. split; [exact Hout|exact Hmean].
Defined.

Lemma stop_capture_does_not_truncate_batch_witness :
  read_spectrum_stopped_after 2
    (capturing_session three_pixels
       [Some scan_a; None; Some scan_b; Some scan_c])
  = map_outcome stop_capture
      (read_spectrum
         (capturing_session three_pixels
            [Some scan_a; None; Some scan_b; Some scan_c])).
Proof.
  refine (proj1 (stop_capture_does_not_truncate_batch
                   (capturing_session three_pixels
                      [Some scan_a; None; Some scan_b; Some scan_c])
                   2%nat _)).
  vm_compute. lia.
Defined.

Lemma update_acquires_only_when_capturing_and_initialized_witness :
  update (start_capture (init [])) = Returns (start_capture (init [])).
Proof.
  apply (proj1 (proj2 (update_acquires_only_when_capturing_and_initialized
                         (start_capture (init []))))); reflexivity.
Defined.

(* ================================================================== *)
(** * The session: what the handlers keep *)
(* ================================================================== *)

Lemma same_controls_refl (s : USB2000) : same_controls s s.
Proof. repeat split. Qed.

Lemma read_spectrum_controls (s : USB2000) :
  same_controls s (state_of (read_spectrum s)).
Proof.
  unfold read_spectrum, average. rewrite acquire_loop_eq.
  cbn [intensities set_stdout set_intensities set_spec].
  destruct (_ ++ _)%list as [|first rest]; [repeat split|].
  destruct (Numpy.mean_axis0 first rest); repeat split.
Qed.

Lemma update_controls (s : USB2000) : same_controls s (state_of (update s)).
Proof.
  unfold update.
  destruct (capturing s); [|apply same_controls_refl].
  destruct (initialized s); [|apply same_controls_refl].
  pose proof (read_spectrum_controls s) as H.
  destruct (read_spectrum s); exact H.
Qed.

Lemma export_data_controls (float_str : float -> string) (filename : string)
      (s : USB2000) :
  same_controls s (state_of (export_data float_str filename s)).
Proof.
  unfold export_data. simpl.
  destruct (String.eqb filename ""); [repeat split|].
  destruct (write_rows _ _ _ _ _) as [f [e|]]; repeat split.
Qed.

Lemma same_controls_gated (s s' : USB2000) :
  same_controls s s' -> gated s -> gated s'.
Proof.
  unfold same_controls, gated.
  intros (-> & -> & -> & -> & -> & _) H. exact H.
Qed.

Lemma same_controls_positive (s s' : USB2000) :
  same_controls s s' -> positive_settings s -> positive_settings s'.
Proof.
  unfold same_controls, positive_settings.
  intros (_ & _ & _ & _ & _ & -> & ->) H. exact H.
Qed.

Lemma init_spectrometer_gated (found : option Spectrometer) (s : USB2000) :
  connect_button s = true -> gated s -> gated (init_spectrometer found s).
Proof.
  unfold gated. intros Hc (Hstart & Hstop & Hconn & Hcap).
  rewrite Hc in Hconn.
  assert (Hini : initialized s = false) by now destruct (initialized s).
  assert (Hcapt : capturing s = false).
  { destruct (capturing s); [|reflexivity]. rewrite Hcap in Hini; congruence. }
  unfold init_spectrometer.
  destruct found as [d|]; simpl; [|rewrite Hini, Hcapt in *; now repeat split].
  destruct (Device.integration_time_micros _ d) as [d1|]; simpl;
    [|rewrite Hini, Hcapt in *; now repeat split].
  destruct (Device.wavelengths d1) as [w|]; simpl;
    [|rewrite Hini, Hcapt in *; now repeat split].
  destruct w as [|w0 w]; simpl; rewrite ?Hini, Hcapt in *; now repeat split.
Qed.

Lemma update_integration_time_flags (int : string -> option Z)
      (s : USB2000) :
  let s' := update_integration_time int s in
  initialized s' = initialized s /\ capturing s' = capturing s
  /\ connect_button s' = connect_button s
  /\ start_capture_button s' = start_capture_button s
  /\ stop_capture_button s' = stop_capture_button s
  /\ scans_to_average s' = scans_to_average s.
Proof.
  unfold update_integration_time.
  destruct (int _) as [us|]; simpl; [|repeat split].
  destruct (spec s) as [d|]; simpl; [|repeat split].
  destruct (Device.integration_time_micros us d); repeat split.
Qed.

Lemma update_scans_to_average_flags (int : string -> option Z)
      (s : USB2000) :
  let s' := update_scans_to_average int s in
  initialized s' = initialized s /\ capturing s' = capturing s
  /\ connect_button s' = connect_button s
  /\ start_capture_button s' = start_capture_button s
  /\ stop_capture_button s' = stop_capture_button s
  /\ integration_time_us s' = integration_time_us s.
Proof.
  unfold update_scans_to_average.
  destruct (int _) as [n|]; repeat split.
Qed.

Lemma handle_gated (int : string -> option Z)
      (float_str : float -> string) (e : event) (s : USB2000) :
  gated s -> gated (handle int float_str e s).
Proof.
  intro H. destruct e as [|found|text|text| | |filename]; simpl.
  - exact (same_controls_gated _ _ (update_controls s) H).
  - destruct (connect_button s) eqn:Hc; [|exact H].
    now apply init_spectrometer_gated.
  - destruct (update_integration_time_flags int
                (set_integration_time_edit text s))
      as (H1 & H2 & H3 & H4 & H5 & _).
    unfold gated in *. simpl in *. now rewrite H1, H2, H3, H4, H5.
  - destruct (update_scans_to_average_flags int
                (set_scans_to_average_edit text s))
      as (H1 & H2 & H3 & H4 & H5 & _).
    unfold gated in *. simpl in *. now rewrite H1, H2, H3, H4, H5.
  - destruct (start_capture_button s) eqn:Hb; [|exact H].
    unfold gated in *. simpl. destruct H as (Hs & Ht & Hc & Hi).
    rewrite Hb in Hs. symmetry in Hs. apply andb_true_iff in Hs.
    destruct Hs as [Hini _]. rewrite Hini in *. now repeat split.
  - destruct (stop_capture_button s) eqn:Hb; [|exact H].
    unfold gated in *. simpl. destruct H as (Hs & Ht & Hc & Hi).
    rewrite Hb in Ht. symmetry in Ht. rewrite (Hi Ht) in *.
    repeat split; assumption.
  - exact (same_controls_gated _ _ (export_data_controls float_str _ s) H).
Qed.

Lemma run_gated (int : string -> option Z)
      (float_str : float -> string) (events : list event) (s : USB2000) :
  gated s -> gated (run int float_str events s).
Proof.
  revert s. induction events as [|e events IH]; intros s H; simpl.
  - exact H.
  - apply IH. now apply handle_gated.
Qed.

Lemma handle_positive (int : string -> option Z)
      (float_str : float -> string) (e : event) (s : USB2000) :
  commits_positive int e -> positive_settings s ->
  positive_settings (handle int float_str e s).
Proof.
  intros He H. destruct e as [|found|text|text| | |filename]; simpl.
  - exact (same_controls_positive _ _ (update_controls s) H).
  - destruct (connect_button s); [|exact H].
    unfold init_spectrometer.
    destruct found as [d|]; simpl; [|exact H].
    destruct (Device.integration_time_micros _ d) as [d1|]; simpl; [|exact H].
    destruct (Device.wavelengths d1) as [[|w0 w]|]; exact H.
  - unfold update_integration_time, positive_settings in *. simpl in *.
    destruct (int text) as [us|] eqn:Hus; simpl; [|exact H].
    specialize (He us eq_refl).
    destruct (spec s) as [d|]; simpl; [|now split].
    destruct (Device.integration_time_micros us d); now split.
  - unfold update_scans_to_average, positive_settings in *. simpl in *.
    destruct (int text) as [n|] eqn:Hn; simpl; [|exact H].
    specialize (He n eq_refl). now split.
  - destruct (start_capture_button s); exact H.
  - destruct (stop_capture_button s); exact H.
  - exact (same_controls_positive _ _ (export_data_controls float_str _ s) H).
Qed.


Lemma handle_settings_connect (int : string -> option Z)
      (float_str : float -> string) (found : option Spectrometer)
      (s : USB2000) :
  scans_to_average (handle int float_str (ClickConnect found) s)
  = scans_to_average s
  /\ integration_time_us (handle int float_str (ClickConnect found) s)
     = integration_time_us s.
Proof.
  cbn. destruct (connect_button s); [|now split].
  unfold init_spectrometer.
  destruct found as [d|]; cbn; [|now split].
  destruct (Device.integration_time_micros _ d) as [d1|]; cbn; [|now split].
  destruct (Device.wavelengths d1) as [[|w0 w]|]; now split.
Qed.

(* ================================================================== *)
(** * Properties of the capture state machine and of the settings *)
(* ================================================================== *)

(** C4, as the claim states it, fails: [start_capture] has no guard.
    Called in the initial state, which is [Idle], it sets the capture
    flag and enables Stop. *)
Lemma start_capture_from_idle_sets_flag :
  state (init []) = Idle
  /\ start_capture (init []) <> init []
  /\ capturing (start_capture (init [])) = true
  /\ stop_capture_button (start_capture (init [])) = true.
Proof.
  repeat split. intro H. apply (f_equal capturing) in H. discriminate H.
Qed.

(** C4, amended.  [start_capture] itself sets the capture flag in any
    state; what rejects the operator's request is the Start button.  In
    every state a session reaches from the initial one, the button is
    enabled exactly when the state is [Connected]; a click on it in
    [Idle] or [Capturing] changes nothing, and a click in [Connected]
    moves to [Capturing]. *)
Theorem start_capture_gated_by_button :
  forall (int : string -> option Z) (float_str : float -> string)
         (disk : list (string * string)) (events : list event),
    let s := run int float_str events (init disk) in
    (forall s0, capturing (start_capture s0) = true)
    /\ (start_capture_button s = true <-> state s = Connected)
    /\ (state s <> Connected -> handle int float_str ClickStartCapture s = s)
    /\ (state s = Connected ->
        state (handle int float_str ClickStartCapture s) = Capturing).
Proof.
  intros int float_str disk events s.
  assert (H : gated s).
  { apply run_gated. unfold gated. simpl. repeat split. discriminate. }
  destruct H as (Hs & _ & _ & Hi).
  split; [reflexivity|].
  unfold state, handle. rewrite Hs.
  destruct (initialized s) eqn:Ei, (capturing s) eqn:Ec; simpl; rewrite ?Ei;
    try (now specialize (Hi eq_refl));
    repeat split; try reflexivity; try discriminate; try congruence.
Qed.

Lemma start_capture_gated_by_button_witness :
  handle Text.int decimal_str ClickStartCapture
    (run Text.int decimal_str [ClickStartCapture; Tick] (init []))
  = run Text.int decimal_str [ClickStartCapture; Tick] (init []).
Proof.
  apply (proj1 (proj2 (proj2 (start_capture_gated_by_button Text.int
                                decimal_str [] [ClickStartCapture; Tick])))).
  discriminate.
Defined.

(** C9, as the claim states it, fails: the text [0] denotes an integer,
    and committing it makes the averaging depth 0; committing [-5] makes
    the integration time negative. *)
Lemma commit_of_nonpositive_text :
  Text.int "0" = Some 0
  /\ Text.int "-5" = Some (-5)
  /\ scans_to_average
       (run Text.int decimal_str [CommitScansToAverage "0"] (init [])) = 0
  /\ integration_time_us
       (run Text.int decimal_str [CommitIntegrationTime "-5"] (init []))
     = -5.
Proof. repeat split. Qed.

(** C9, amended.  A session starts with depth 4 and integration time
    20000.  The commit of a field replaces its setting by the integer
    the text denotes, of whatever sign, and leaves it when the text
    denotes none; no other event changes the setting.  So the two
    settings are positive after every operation of a session whose
    committed texts denote positive integers or no integer. *)
Theorem settings_positive_when_commits_are :
  forall (int : string -> option Z) (float_str : float -> string),
    (forall disk,
        scans_to_average (init disk) = 4
        /\ integration_time_us (init disk) = 20000)
    /\ (forall s text n,
           int text = Some n ->
           scans_to_average
             (handle int float_str (CommitScansToAverage text) s) = n
           /\ integration_time_us
                (handle int float_str (CommitIntegrationTime text) s) = n)
    /\ (forall s text,
           int text = None ->
           scans_to_average
             (handle int float_str (CommitScansToAverage text) s)
           = scans_to_average s
           /\ integration_time_us
                (handle int float_str (CommitIntegrationTime text) s)
              = integration_time_us s)
    /\ (forall s e,
           (forall text, e <> CommitScansToAverage text) ->
           scans_to_average (handle int float_str e s) = scans_to_average s)
    /\ (forall s e,
           (forall text, e <> CommitIntegrationTime text) ->
           integration_time_us (handle int float_str e s)
           = integration_time_us s)
    /\ (forall disk events,
           Forall (commits_positive int) events ->
           0 < scans_to_average (run int float_str events (init disk))
           /\ 0 < integration_time_us
                    (run int float_str events (init disk))).
Proof.
  intros int float_str.
  split; [intro disk; split; reflexivity|].
  split.
  { intros s text n Hn. unfold handle, update_scans_to_average,
      update_integration_time. cbn. rewrite Hn. cbn. split; [reflexivity|].
    destruct (spec s) as [d|]; cbn; [|reflexivity].
    now destruct (Device.integration_time_micros n d). }
  split.
  { intros s text Hn. unfold handle, update_scans_to_average,
      update_integration_time. cbn. rewrite Hn. split; reflexivity. }
  split.
  { intros s e He. destruct e as [|found|text|text| | |filename].
    - apply (update_controls s).
    - destruct (handle_settings_connect int float_str found s) as [H _].
      exact H.
    - apply (update_integration_time_flags int
               (set_integration_time_edit text s)).
    - now contradiction (He text).
    - cbn. now destruct (start_capture_button s).
    - cbn. now destruct (stop_capture_button s).
    - apply (export_data_controls float_str filename s). }
  split.
  { intros s e He. destruct e as [|found|text|text| | |filename].
    - apply (update_controls s).
    - destruct (handle_settings_connect int float_str found s) as [_ H].
      exact H.
    - now contradiction (He text).
    - apply (update_scans_to_average_flags int
               (set_scans_to_average_edit text s)).
    - cbn. now destruct (start_capture_button s).
    - cbn. now destruct (stop_capture_button s).
    - apply (export_data_controls float_str filename s). }
  intros disk events Hev.
  assert (H : positive_settings (init disk)) by (split; reflexivity).
  revert H. generalize (init disk).
  induction Hev as [|e events He _ IH]; intros s H; simpl.
  - exact H.
  - apply IH. now apply handle_positive.
Qed.

Lemma settings_positive_when_commits_are_witness :
  0 < scans_to_average
        (run Text.int decimal_str
           [CommitScansToAverage "8"; CommitIntegrationTime "fast"; Tick]
           (init []))
  /\ 0 < integration_time_us
           (run Text.int decimal_str
              [CommitScansToAverage "8"; CommitIntegrationTime "fast"; Tick]
              (init [])).
Proof.
  apply (proj2 (proj2 (proj2 (proj2 (proj2
           (settings_positive_when_commits_are Text.int decimal_str)))))
           []
           [CommitScansToAverage "8"; CommitIntegrationTime "fast"; Tick]).
  repeat constructor; intros n Hn; vm_compute in Hn;
    inversion Hn; reflexivity.
Defined.

(** C6, as the claim states it, fails in its second half: the stored
    value is assigned before the device is asked.  A connected device
    that takes no integration time below 1000 rejects 5; the exception
    is printed, the device keeps 20000, and the stored value is 5. *)
Lemma stored_integration_time_changes_on_rejection :
  Text.int "5" = Some 5
  /\ integration_time_us (connected_session three_pixels []) = 20000
  /\ stdout (handle Text.int decimal_str (CommitIntegrationTime "5")
               (connected_session three_pixels [])) = [DeviceError]
  /\ integration_time_us
       (handle Text.int decimal_str (CommitIntegrationTime "5")
          (connected_session three_pixels [])) = 5
  /\ option_map exposure_us
       (spec (handle Text.int decimal_str (CommitIntegrationTime "5")
                (connected_session three_pixels []))) = Some 20000.
Proof. repeat split. Qed.

(** C6, amended.  Committing a text that denotes the integer [us], as
    the text [50000] denotes 50000, stores [us] as the integration time,
    whatever the device says; a connected device that accepts [us] has
    it as its integration time afterwards; a connected device that
    rejects [us] stays as it was, so its previous integration time
    remains in effect, while the stored value is already [us].  The
    stored value is unchanged only when the text denotes no integer. *)
Theorem update_integration_time_stores_then_applies :
  forall int : string -> option Z,
    (int "50000" = Some 50000 ->
     forall s : USB2000,
       let s' :=
         update_integration_time int (set_integration_time_edit "50000" s) in
       integration_time_us s' = 50000
       /\ forall d, spec s = Some d -> accepts d 50000 = true ->
            exists d', spec s' = Some d' /\ exposure_us d' = 50000)
    /\ (forall (s : USB2000) (text : string) (us : Z),
           int text = Some us ->
           let s' :=
             update_integration_time int (set_integration_time_edit text s) in
           integration_time_us s' = us
           /\ (forall d, spec s = Some d -> accepts d us = true ->
                 exists d', spec s' = Some d' /\ exposure_us d' = us)
           /\ (forall d, spec s = Some d -> accepts d us = false ->
                 spec s' = Some d))
    /\ (forall (s : USB2000) (text : string),
           int text = None ->
           let s' :=
             update_integration_time int (set_integration_time_edit text s) in
           integration_time_us s' = integration_time_us s
           /\ spec s' = spec s).
Proof.
  intro int.
  assert (General :
    forall (s : USB2000) (text : string) (us : Z),
      int text = Some us ->
      let s' :=
        update_integration_time int (set_integration_time_edit text s) in
      integration_time_us s' = us
      /\ (forall d, spec s = Some d -> accepts d us = true ->
            exists d', spec s' = Some d' /\ exposure_us d' = us)
      /\ (forall d, spec s = Some d -> accepts d us = false ->
            spec s' = Some d)).
  { intros s text us Hus. unfold update_integration_time. simpl.
    rewrite Hus. simpl.
    destruct (spec s) as [d|] eqn:Hd; simpl.
    + unfold Device.integration_time_micros.
      destruct (accepts d us) eqn:Hacc; simpl.
      * split; [reflexivity|]. split.
        -- intros d0 [= <-] _. eexists; split; reflexivity.
        -- intros d0 [= <-] Ha. congruence.
      * split; [reflexivity|]. split.
        -- intros d0 [= <-] Ha. congruence.
        -- intros d0 [= <-] _. exact Hd.
    + repeat split; intros d Hd'; discriminate. }
  split; [|split].
  - intros H s. destruct (General s "50000" 50000 H) as (H1 & H2 & _).
    split; assumption.
  - exact General.
  - intros s text Hus. unfold update_integration_time. simpl.
    rewrite Hus. split; reflexivity.
Qed.

Lemma update_integration_time_stores_then_applies_witness :
  integration_time_us
    (update_integration_time Text.int
       (set_integration_time_edit "50000" (connected_session three_pixels [])))
  = 50000.
Proof.
  apply (proj1 (proj1 (update_integration_time_stores_then_applies Text.int)
                  eq_refl (connected_session three_pixels []))).
Defined.

(** C7: what [export_data] does without data.  The test for missing
    data reads [self.intensities is None], and that attribute always
    holds a list: the branch is never taken.  In a fresh session a
    chosen file is written, with the header alone, and the export is
    reported as done; in a connected session that has not captured, the
    header is written and [IndexError] escapes.  Without a file name
    the label says so and no file is written. *)
Theorem export_data_never_reports_missing_data :
  forall float_str : float -> string,
    export_data float_str "out.csv" (init [])
    = Returns (set_status_label "INFO: Data exported to out.csv"
                 (write_file "out.csv" ("Wavelength,Intensity" ++ Text.CRLF)
                    (init [])))
    /\ export_data float_str "out.csv" (connected_session three_pixels [])
       = Raises IndexError
           (write_file "out.csv" ("Wavelength,Intensity" ++ Text.CRLF)
              (connected_session three_pixels []))
    /\ forall s : USB2000,
         export_data float_str "" s
         = Returns (set_status_label "ERROR: No file selected" s).
Proof.
  intro float_str. split; [|split].
  - vm_compute. reflexivity.
  - vm_compute. reflexivity.
  - intro s. unfold export_data. reflexivity.
Qed.

(* ================================================================== *)
(** * The exported file *)
(* ================================================================== *)

Section Strings.

Lemma append_assoc (a b c : string) : (a ++ b) ++ c = a ++ (b ++ c).
Proof. induction a as [|x a IH]; simpl; [reflexivity|now rewrite IH]. Qed.

Lemma append_empty_r (a : string) : a ++ "" = a.
Proof. induction a as [|x a IH]; simpl; [reflexivity|now rewrite IH]. Qed.

Lemma contains_append (p : ascii -> bool) (a b : string) :
  Text.contains p (a ++ b) = Text.contains p a || Text.contains p b.
Proof.
  induction a as [|x a IH]; simpl; [reflexivity|].
  now rewrite IH, orb_assoc.
Qed.

Lemma special_newline (c : ascii) :
  Csv.special c = false -> is_newline c = false.
Proof.
  unfold Csv.special, is_newline. intro H.
  apply orb_false_iff in H. destruct H as [H Hlf].
  apply orb_false_iff in H. destruct H as [_ Hcr].
  now rewrite Hcr, Hlf.
Qed.

Lemma plain_no_newline (s : string) :
  plain s -> Text.contains is_newline s = false.
Proof.
  unfold plain, Csv.needs_quoting.
  induction s as [|c s IH]; simpl; [reflexivity|].
  intro H. apply orb_false_iff in H. destruct H as [Hc Hs].
  now rewrite (special_newline c Hc), IH.
Qed.

Lemma rev_onto_rev_onto (l acc acc' : string) :
  Text.rev_onto (Text.rev_onto l acc) acc' = Text.rev_onto acc (l ++ acc').
Proof.
  revert acc acc'. induction l as [|c l IH]; intros acc acc'; simpl.
  - reflexivity.
  - now rewrite IH.
Qed.

Lemma reverse_rev_onto (l : string) :
  Text.reverse (Text.rev_onto l "") = l.
Proof.
  unfold Text.reverse. rewrite rev_onto_rev_onto. simpl.
  apply append_empty_r.
Qed.

(** Reading a text without line breaks moves it onto the current line. *)
Lemma lines_from_append (l cur rest : string) :
  Text.contains is_newline l = false ->
  Text.lines_from cur (l ++ rest) = Text.lines_from (Text.rev_onto l cur) rest.
Proof.
  revert cur. induction l as [|c l IH]; intros cur H; simpl in *.
  - reflexivity.
  - apply orb_false_iff in H. destruct H as [Hc Hl].
    unfold is_newline in Hc. apply orb_false_iff in Hc.
    destruct Hc as [Hcr Hlf]. rewrite Hlf, Hcr. now apply IH.
Qed.

(** The lines of a file of CR LF ended lines are the lines it was made
    of: one line break per line, no line in between. *)
Lemma splitlines_file_of_lines (lines : list string) :
  Forall (fun l => Text.contains is_newline l = false) lines ->
  Text.splitlines (file_of_lines lines) = lines.
Proof.
  unfold Text.splitlines.
  induction 1 as [|l lines Hl _ IH]; simpl; [reflexivity|].
  rewrite lines_from_append by exact Hl.
  simpl. now rewrite reverse_rev_onto, IH.
Qed.

End Strings.

Section Rows.

Variable float_str : float -> string.

Lemma skipn_nth_error {A : Type} (l : list A) (k : nat) (x : A) :
  nth_error l k = Some x -> skipn k l = x :: skipn (S k) l.
Proof.
  revert k. induction l as [|y l IH]; intros [|k] H; simpl in *;
    try discriminate.
  - now inversion H.
  - now apply IH.
Qed.

Lemma writerow_plain (x y : string) :
  plain x -> plain y -> Csv.writerow [x; y] = (x ++ "," ++ y) ++ Text.CRLF.
Proof.
  unfold plain. intros Hx Hy.
  unfold Csv.writerow. simpl. unfold Csv.field. now rewrite Hx, Hy.
Qed.

(** The loop of [export_data] on two arrays of one length: every pixel
    gets its row, in order, and no exception is raised. *)
Lemma write_rows_eq (ws avg : ndarray) (m k : nat) (f : string) :
  (k + m)%nat = List.length ws ->
  List.length avg = List.length ws ->
  Forall plain (map float_str ws) ->
  Forall plain (map float_str avg) ->
  write_rows float_str (seq k m) ws avg f
  = (f ++ file_of_lines
            (map (row float_str) (combine (skipn k ws) (skipn k avg))),
     None).
Proof.
  intros Hk Hlen Hws Havg. revert k f Hk.
  induction m as [|m IH]; intros k f Hk; simpl.
  - rewrite skipn_all2 by lia. simpl. now rewrite append_empty_r.
  - destruct (nth_error ws k) as [w|] eqn:Hw;
      [|apply nth_error_None in Hw; lia].
    destruct (nth_error avg k) as [a|] eqn:Ha;
      [|apply nth_error_None in Ha; lia].
    rewrite IH by lia.
    rewrite (skipn_nth_error ws k w Hw), (skipn_nth_error avg k a Ha).
    rewrite writerow_plain.
    + simpl. unfold row at 2. simpl. now rewrite !append_assoc.
    + rewrite Forall_forall in Hws. apply Hws, in_map.
      eapply nth_error_In; eassumption.
    + rewrite Forall_forall in Havg. apply Havg, in_map.
      eapply nth_error_In; eassumption.
Qed.

Lemma row_no_newline (p : float * float) :
  plain (float_str (fst p)) -> plain (float_str (snd p)) ->
  Text.contains is_newline (row float_str p) = false.
Proof.
  intros H1 H2. unfold row.
  rewrite contains_append, (plain_no_newline _ H1). simpl.
  apply (plain_no_newline _ H2).
Qed.

Lemma rows_no_newline (ws avg : ndarray) :
  Forall plain (map float_str ws) ->
  Forall plain (map float_str avg) ->
  Forall (fun l => Text.contains is_newline l = false)
    (map (row float_str) (combine ws avg)).
Proof.
  intros Hws Havg. rewrite Forall_forall in *.
  intros l Hl. apply in_map_iff in Hl. destruct Hl as ([w a] & <- & Hin).
  apply row_no_newline; simpl.
  - apply Hws, in_map. eapply in_combine_l; eassumption.
  - apply Havg, in_map. eapply in_combine_r; eassumption.
Qed.

Lemma row_not_empty (p : float * float) : row float_str p <> "".
Proof. unfold row. destruct (float_str (fst p)); simpl; discriminate. Qed.

Lemma read_file_write_file (filename content : string) (s : USB2000) :
  read_file filename (write_file filename content s) = Some content.
Proof.
  unfold read_file, write_file. simpl. now rewrite String.eqb_refl.
Qed.

(** The export of two arrays of one length, in one equation. *)
Lemma export_data_eq (filename : string) (s : USB2000) :
  filename <> "" ->
  List.length (averaged_intensities s) = List.length (wavelengths s) ->
  Forall plain (map float_str (wavelengths s)) ->
  Forall plain (map float_str (averaged_intensities s)) ->
  export_data float_str filename s
  = Returns
      (set_status_label ("INFO: Data exported to " ++ filename)
         (write_file filename
            (file_of_lines
               (header
                  :: map (row float_str)
                       (combine (wavelengths s) (averaged_intensities s))))
            s)).
Proof.
  intros Hname Hlen Pws Pavg.
  apply String.eqb_neq in Hname.
  unfold export_data.
  change (is_None (intensities s)) with false. cbv iota.
  rewrite Hname.
  rewrite (write_rows_eq (wavelengths s) (averaged_intensities s)
             (List.length (wavelengths s)) 0) by (assumption || reflexivity).
  change (Csv.writerow ["Wavelength"; "Intensity"])
    with (header ++ Text.CRLF).
  cbn [skipn file_of_lines]. now rewrite append_assoc.
Qed.

End Rows.

(** C8. An export with a file name, of [n] wavelengths and [n] averaged
    intensities whose texts the writer leaves unquoted, returns, and the
    file then holds the header line [Wavelength,Intensity] and [n] rows,
    one per calibration point in order, the row of point [i] being the
    text of [wavelengths[i]], a comma, and the text of
    [averaged_intensities[i]]; each line is ended by one line break (the
    CR LF of the writer), so that the lines of the file are the header
    and the rows, none of them empty.  With wavelengths 330 and 331,
    intensities 10.5 and 20.25 and their texts [330.0], [331.0], [10.5]
    and [20.25], the lines are [Wavelength,Intensity], [330.0,10.5] and
    [331.0,20.25]. *)
Theorem export_data_writes_header_and_rows :
  (forall (float_str : float -> string) (filename : string) (s : USB2000)
          (n : nat),
      filename <> "" ->
      List.length (wavelengths s) = n ->
      List.length (averaged_intensities s) = n ->
      Forall plain (map float_str (wavelengths s)) ->
      Forall plain (map float_str (averaged_intensities s)) ->
      let rows :=
        map (row float_str)
            (combine (wavelengths s) (averaged_intensities s)) in
      exists s',
        export_data float_str filename s = Returns s'
        /\ read_file filename s' = Some (file_of_lines (header :: rows))
        /\ Text.splitlines (file_of_lines (header :: rows)) = header :: rows
        /\ List.length rows = n
        /\ Forall (fun l => l <> "") (header :: rows)
        /\ status_label s' = "INFO: Data exported to " ++ filename)
  /\ (forall (float_str : float -> string) (filename : string) (s : USB2000),
         filename <> "" ->
         wavelengths s = [330; 331]%float ->
         averaged_intensities s = [10.5; 20.25]%float ->
         float_str 330%float = "330.0" -> float_str 331%float = "331.0" ->
         float_str 10.5%float = "10.5" -> float_str 20.25%float = "20.25" ->
         exists s' content,
           export_data float_str filename s = Returns s'
           /\ read_file filename s' = Some content
           /\ Text.splitlines content
              = ["Wavelength,Intensity"; "330.0,10.5"; "331.0,20.25"]).
Proof.
  assert (General :
    forall (float_str : float -> string) (filename : string) (s : USB2000)
           (n : nat),
      filename <> "" ->
      List.length (wavelengths s) = n ->
      List.length (averaged_intensities s) = n ->
      Forall plain (map float_str (wavelengths s)) ->
      Forall plain (map float_str (averaged_intensities s)) ->
      let rows :=
        map (row float_str)
            (combine (wavelengths s) (averaged_intensities s)) in
      exists s',
        export_data float_str filename s = Returns s'
        /\ read_file filename s' = Some (file_of_lines (header :: rows))
        /\ Text.splitlines (file_of_lines (header :: rows)) = header :: rows
        /\ List.length rows = n
        /\ Forall (fun l => l <> "") (header :: rows)
        /\ status_label s' = "INFO: Data exported to " ++ filename).
  { intros float_str filename s n Hname Hws Havg Pws Pavg rows.
    eexists. split.
    - apply export_data_eq; try assumption. congruence.
    - fold rows. split; [apply read_file_write_file|].
      split; [|split; [|split]].
      + apply splitlines_file_of_lines. constructor; [reflexivity|].
        now apply rows_no_newline.
      + unfold rows. rewrite length_map, length_combine. lia.
      + constructor; [discriminate|]. unfold rows.
        apply Forall_forall. intros l Hl. apply in_map_iff in Hl.
        destruct Hl as (p & <- & _). apply row_not_empty.
      + reflexivity. }
  split; [exact General|].
  intros float_str filename s Hname Hws Havg H330 H331 H105 H2025.
  destruct (General float_str filename s 2%nat Hname) as (s' & Hs' & Hf & Hl & _).
  - now rewrite Hws.
  - now rewrite Havg.
  - rewrite Hws. simpl. rewrite H330, H331. repeat constructor.
  - rewrite Havg. simpl. rewrite H105, H2025. repeat constructor.
  - exists s'. eexists. split; [exact Hs'|]. split; [exact Hf|].
    rewrite Hl, Hws, Havg. simpl. unfold row. simpl.
    now rewrite H330, H331, H105, H2025.
Qed.

Lemma export_data_writes_header_and_rows_witness :
  exists s' content,
    export_data decimal_str "spectrum.csv"
      (set_averaged_intensities [10.5; 20.25]%float
         (connected_session [330; 331]%float [])) = Returns s'
    /\ read_file "spectrum.csv" s' = Some content
    /\ Text.splitlines content
       = ["Wavelength,Intensity"; "330.0,10.5"; "331.0,20.25"].
Proof.
  apply (proj2 export_data_writes_header_and_rows decimal_str "spectrum.csv"
           (set_averaged_intensities [10.5; 20.25]%float
              (connected_session [330; 331]%float [])));
    try reflexivity.
  discriminate.
Defined.

(* ================================================================== *)
(** * Further properties: connection and the capture state machine *)
(* ================================================================== *)

(** The two ways [init_spectrometer] ends. *)
Lemma init_spectrometer_cases :
  forall (found : option Spectrometer) (s : USB2000),
    let s' := init_spectrometer found s in
    if connects found (integration_time_us s) then
      initialized s' = true
      /\ option_map calibration (spec s') = Some (Some (wavelengths s'))
      /\ wavelengths s' <> []
      /\ option_map exposure_us (spec s') = Some (integration_time_us s)
      /\ option_map reads (spec s') = option_map reads found
      /\ connect_button s' = false
      /\ start_capture_button s' = true
      /\ stdout s' = stdout s
      /\ averaged_intensities s' = averaged_intensities s
    else
      same_controls s s'
      /\ status_label s' = "No device detected"
      /\ List.length (stdout s') = S (List.length (stdout s))
      /\ averaged_intensities s' = averaged_intensities s
      /\ (found = None -> spec s' = spec s).
Proof.
  intros found s. unfold connects, init_spectrometer.
  destruct found as [d|]; cbn zeta.
  - unfold Device.integration_time_micros, Device.wavelengths. cbn.
    destruct (accepts d (integration_time_us s)); cbn.
    + destruct (calibration d) as [[|w0 w]|]; cbn;
        repeat split; try discriminate;
        now rewrite length_app, Nat.add_1_r.
    + repeat split; try discriminate. now rewrite length_app, Nat.add_1_r.
  - cbn. repeat split. now rewrite length_app, Nat.add_1_r.
Qed.

Lemma update_wavelengths (s : USB2000) :
  wavelengths (state_of (update s)) = wavelengths s
  /\ option_map calibration (spec (state_of (update s)))
     = option_map calibration (spec s).
Proof.
  unfold update.
  destruct (capturing s); [|now split].
  destruct (initialized s); [|now split].
  assert (H : wavelengths (state_of (read_spectrum s)) = wavelengths s
              /\ option_map calibration (spec (state_of (read_spectrum s)))
                 = option_map calibration (spec s)).
  { unfold read_spectrum.
    destruct (average_frame
                (acquire_loop (range_length (scans_to_average
                                               (set_intensities [] s)))
                   (set_intensities [] s))) as (Hs & _ & _ & Hw & _).
    rewrite Hs, Hw, acquire_loop_eq. cbn. split; [reflexivity|].
    now destruct (spec s). }
  destruct (read_spectrum s); exact H.
Qed.

Lemma export_data_frame (float_str : float -> string) (filename : string)
      (s : USB2000) :
  let s' := state_of (export_data float_str filename s) in
  wavelengths s' = wavelengths s /\ spec s' = spec s
  /\ averaged_intensities s' = averaged_intensities s
  /\ intensities s' = intensities s /\ plot s' = plot s
  /\ stdout s' = stdout s.
Proof.
  unfold export_data. simpl.
  destruct (String.eqb filename ""); [repeat split|].
  destruct (write_rows _ _ _ _ _) as [f [e|]]; repeat split.
Qed.

Lemma update_integration_time_wavelengths (int : string -> option Z)
      (s : USB2000) :
  let s' := update_integration_time int s in
  wavelengths s' = wavelengths s
  /\ option_map calibration (spec s') = option_map calibration (spec s)
  /\ averaged_intensities s' = averaged_intensities s.
Proof.
  unfold update_integration_time.
  destruct (int _) as [us|]; simpl; [|repeat split].
  destruct (spec s) as [d|] eqn:Hd; simpl; [|rewrite Hd; repeat split].
  unfold Device.integration_time_micros.
  destruct (accepts d us); simpl; rewrite ?Hd; repeat split.
Qed.

Lemma bound_transfer (s s' : USB2000) :
  initialized s' = initialized s ->
  wavelengths s' = wavelengths s ->
  option_map calibration (spec s') = option_map calibration (spec s) ->
  bound s -> bound s'.
Proof.
  unfold bound. intros Hi Hw Hc H Hini. rewrite Hi in Hini.
  destruct (H Hini) as (Hne & d & Hd & Hcal).
  rewrite Hw. split; [exact Hne|].
  rewrite Hd in Hc. destruct (spec s') as [d'|]; [|discriminate].
  exists d'. split; [reflexivity|]. simpl in Hc. congruence.
Qed.

Lemma handle_bound (int : string -> option Z)
      (float_str : float -> string) (e : event) (s : USB2000) :
  gated s -> bound s -> bound (handle int float_str e s).
Proof.
  intros Hg Hb. destruct e as [|found|text|text| | |filename]; simpl.
  - destruct (update_controls s) as (Hi & _).
    destruct (update_wavelengths s) as (Hw & Hc).
    exact (bound_transfer _ _ Hi Hw Hc Hb).
  - destruct (connect_button s) eqn:Hcb; [|exact Hb].
    pose proof (init_spectrometer_cases found s) as H.
    cbv zeta in H.
    destruct (connects found (integration_time_us s)).
    + destruct H as (_ & Hcal & Hne & _). intros _. split; [exact Hne|].
      destruct (spec (init_spectrometer found s)) as [d|]; [|discriminate].
      exists d. split; [reflexivity|]. simpl in Hcal. congruence.
    + destruct H as ((Hi & _) & _). intro Hini. rewrite Hi in Hini.
      destruct Hg as (_ & _ & Hc & _). rewrite Hcb, Hini in Hc. discriminate.
  - destruct (update_integration_time_flags int
                (set_integration_time_edit text s))
      as (Hi & _).
    destruct (update_integration_time_wavelengths int
                (set_integration_time_edit text s)) as (Hw & Hc & _).
    exact (bound_transfer _ _ Hi Hw Hc Hb).
  - unfold update_scans_to_average. simpl.
    destruct (int text); exact Hb.
  - destruct (start_capture_button s); exact Hb.
  - destruct (stop_capture_button s); exact Hb.
  - destruct (export_data_controls float_str filename s) as (Hi & _).
    destruct (export_data_frame float_str filename s) as (Hw & Hs & _).
    apply (bound_transfer s); try assumption. now rewrite Hs.
Qed.

Lemma run_gated_bound (int : string -> option Z)
      (float_str : float -> string) (events : list event)
      (s : USB2000) :
  gated s -> bound s ->
  gated (run int float_str events s) /\ bound (run int float_str events s).
Proof.
  revert s. induction events as [|e events IH]; intros s Hg Hb; simpl.
  - now split.
  - apply IH; [now apply handle_gated|now apply handle_bound].
Qed.

Lemma init_gated_bound (disk : list (string * string)) :
  gated (init disk) /\ bound (init disk).
Proof.
  split.
  - unfold gated. simpl. repeat split. discriminate.
  - intro H. discriminate H.
Qed.

(** What an event leaves of an initialized session: it stays
    initialized and keeps its wavelengths. *)
Lemma handle_keeps_connection (int : string -> option Z)
      (float_str : float -> string) (e : event)
      (s : USB2000) :
  gated s -> initialized s = true ->
  initialized (handle int float_str e s) = true
  /\ wavelengths (handle int float_str e s) = wavelengths s.
Proof.
  intros Hg Hini. destruct e as [|found|text|text| | |filename]; simpl.
  - destruct (update_controls s) as (Hi & _).
    destruct (update_wavelengths s) as (Hw & _). now rewrite Hi, Hw.
  - destruct Hg as (_ & _ & Hc & _). rewrite Hini in Hc. simpl in Hc.
    rewrite Hc. now split.
  - destruct (update_integration_time_flags int
                (set_integration_time_edit text s))
      as (Hi & _).
    destruct (update_integration_time_wavelengths int
                (set_integration_time_edit text s)) as (Hw & _).
    now rewrite Hi, Hw.
  - unfold update_scans_to_average. simpl. now destruct (int text).
  - now destruct (start_capture_button s).
  - now destruct (stop_capture_button s).
  - destruct (export_data_controls float_str filename s) as (Hi & _).
    destruct (export_data_frame float_str filename s) as (Hw & _).
    now rewrite Hi, Hw.
Qed.

Lemma run_keeps_connection (int : string -> option Z)
      (float_str : float -> string) (events : list event)
      (s : USB2000) :
  gated s -> initialized s = true ->
  initialized (run int float_str events s) = true
  /\ wavelengths (run int float_str events s) = wavelengths s.
Proof.
  revert s. induction events as [|e events IH]; intros s Hg Hini; simpl.
  - now split.
  - destruct (handle_keeps_connection int float_str e s Hg Hini) as (Hi & Hw).
    destruct (IH (handle int float_str e s) (handle_gated _ _ _ _ Hg) Hi)
      as (Hi' & Hw').
    split; [exact Hi'|congruence].
Qed.


(** X2. Connecting is one-shot.  Once a session is initialized, it holds
    a device whose calibration is its wavelengths, a list that is not
    empty; whatever else happens, it stays initialized (nothing leads
    back to [Idle]), its wavelengths never change, and a click on
    Connect does nothing. *)
Theorem connection_is_one_shot :
  forall (int : string -> option Z) (float_str : float -> string)
         (disk : list (string * string))
         (events : list event),
    let s := run int float_str events (init disk) in
    initialized s = true ->
    wavelengths s <> []
    /\ (exists d, spec s = Some d /\ calibration d = Some (wavelengths s))
    /\ (forall found, handle int float_str (ClickConnect found) s = s)
    /\ forall more,
         initialized (run int float_str more s) = true
         /\ wavelengths (run int float_str more s) = wavelengths s.
Proof.
  intros int float_str disk events s Hini.
  destruct (init_gated_bound disk) as (Hg0 & Hb0).
  destruct (run_gated_bound int float_str events (init disk) Hg0 Hb0)
    as (Hg & Hb).
  fold s in Hg, Hb.
  destruct (Hb Hini) as (Hne & Hd).
  split; [exact Hne|]. split; [exact Hd|]. split.
  - intro found. simpl. destruct Hg as (_ & _ & Hc & _).
    rewrite Hini in Hc. simpl in Hc. now rewrite Hc.
  - intro more. now apply run_keeps_connection.
Qed.

Lemma connection_is_one_shot_witness :
  handle Text.int decimal_str (ClickConnect None)
    (run Text.int decimal_str [ClickConnect (Some (bench three_pixels []))] (init []))
  = run Text.int decimal_str [ClickConnect (Some (bench three_pixels []))] (init []).
Proof.
  refine (proj1 (proj2 (proj2 (connection_is_one_shot Text.int decimal_str []
                                 [ClickConnect (Some (bench three_pixels []))]
                                 _))) None).
  reflexivity.
Defined.

(** X3. The Stop and the Connect button follow the state as the Start
    button does: in every state a session reaches, Stop is enabled
    exactly in [Capturing] and Connect exactly in [Idle]; a click on
    Stop outside [Capturing] changes nothing, and a click in
    [Capturing] leads to [Connected]. *)
Theorem stop_capture_gated_by_button :
  forall (int : string -> option Z) (float_str : float -> string)
         (disk : list (string * string))
         (events : list event),
    let s := run int float_str events (init disk) in
    (stop_capture_button s = true <-> state s = Capturing)
    /\ (connect_button s = true <-> state s = Idle)
    /\ (state s <> Capturing -> handle int float_str ClickStopCapture s = s)
    /\ (state s = Capturing ->
        state (handle int float_str ClickStopCapture s) = Connected).
Proof.
  intros int float_str disk events s.
  assert (H : gated s) by (apply run_gated, init_gated_bound).
  destruct H as (_ & Ht & Hc & Hi).
  unfold state, handle. rewrite Ht, Hc.
  destruct (initialized s) eqn:Ei, (capturing s) eqn:Ec; simpl; rewrite ?Ei;
    try (now specialize (Hi eq_refl));
    repeat split; try reflexivity; try discriminate; try congruence.
Qed.

Lemma stop_start_round_trip (s : USB2000) :
  capturing s = false -> start_capture_button s = true ->
  stop_capture_button s = false ->
  stop_capture (start_capture s) = s.
Proof.
  destruct s. simpl. intros -> -> ->. reflexivity.
Qed.

Lemma start_stop_round_trip (s : USB2000) :
  capturing s = true -> start_capture_button s = false ->
  stop_capture_button s = true ->
  start_capture (stop_capture s) = s.
Proof.
  destruct s. simpl. intros -> -> ->. reflexivity.
Qed.

(** X4. Start and Stop undo each other.  In a state a session reaches,
    a click on Start followed by a click on Stop, from [Connected],
    and a click on Stop followed by a click on Start, from [Capturing],
    give back the very same object: no attribute, datum or button
    differs. *)
Theorem start_and_stop_undo_each_other :
  forall (int : string -> option Z) (float_str : float -> string)
         (disk : list (string * string))
         (events : list event),
    let s := run int float_str events (init disk) in
    (state s = Connected ->
     handle int float_str ClickStopCapture (handle int float_str ClickStartCapture s)
     = s)
    /\ (state s = Capturing ->
        handle int float_str ClickStartCapture
          (handle int float_str ClickStopCapture s) = s).
Proof.
  intros int float_str disk events s.
  assert (H : gated s) by (apply run_gated, init_gated_bound).
  destruct H as (Hs & Ht & _ & _).
  unfold state. split; intro Hst.
  - destruct (initialized s) eqn:Ei; [|discriminate].
    destruct (capturing s) eqn:Ec; [discriminate|].
    simpl in Hs. simpl. rewrite Hs. simpl.
    now apply stop_start_round_trip.
  - destruct (initialized s) eqn:Ei; [|discriminate].
    destruct (capturing s) eqn:Ec; [|discriminate].
    simpl in Hs. simpl. rewrite Ht. simpl.
    now apply start_stop_round_trip.
Qed.

Lemma start_and_stop_undo_each_other_witness :
  handle Text.int decimal_str ClickStopCapture
    (handle Text.int decimal_str ClickStartCapture
       (run Text.int decimal_str [ClickConnect (Some (bench three_pixels []))]
          (init [])))
  = run Text.int decimal_str [ClickConnect (Some (bench three_pixels []))] (init []).
Proof.
  refine (proj1 (start_and_stop_undo_each_other Text.int decimal_str
                   []
                   [ClickConnect (Some (bench three_pixels []))]) _).
  reflexivity.
Defined.

(** X5. An integration time committed before connecting is the one the
    device gets at connection: after the commit of a text that denotes
    [us] and a connection to a device that takes [us] and has a
    calibration, the session is initialized and both the stored value
    and the device's integration time are [us]. *)
Theorem integration_time_committed_before_connecting :
  forall (int : string -> option Z) (s : USB2000) (text : string) (us : Z)
         (d : Spectrometer),
    int text = Some us ->
    connects (Some d) us = true ->
    let s' :=
      init_spectrometer (Some d)
        (update_integration_time int (set_integration_time_edit text s)) in
    initialized s' = true
    /\ integration_time_us s' = us
    /\ option_map exposure_us (spec s') = Some us.
Proof.
  intros int s text us d Hus Hconn s'.
  assert (Hstored :
    integration_time_us
      (update_integration_time int (set_integration_time_edit text s)) = us).
  { unfold update_integration_time. simpl. rewrite Hus. simpl.
    destruct (spec s) as [d0|]; simpl; [|reflexivity].
    now destruct (Device.integration_time_micros us d0). }
  pose proof (init_spectrometer_cases (Some d)
                (update_integration_time int
                   (set_integration_time_edit text s)))
    as H.
  cbv zeta in H. rewrite Hstored, Hconn in H.
  destruct H as (Hi & _ & _ & He & _).
  fold s' in Hi, He. split; [exact Hi|]. split; [|exact He].
  unfold s', init_spectrometer.
  unfold connects in Hconn. apply andb_true_iff in Hconn.
  destruct Hconn as [Hacc Hcal].
  unfold Device.integration_time_micros, Device.wavelengths. cbn.
  rewrite Hstored, Hacc. cbn.
  destruct (calibration d) as [[|w0 w]|]; try discriminate. exact Hstored.
Qed.

Lemma integration_time_committed_before_connecting_witness :
  option_map exposure_us
    (spec (init_spectrometer (Some (bench three_pixels []))
             (update_integration_time Text.int
                (set_integration_time_edit "50000" (init [])))))
  = Some 50000.
Proof.
  refine (proj2 (proj2 (integration_time_committed_before_connecting
                          Text.int (init []) "50000" 50000
                          (bench three_pixels []) _ _))); reflexivity.
Defined.

(* ================================================================== *)
(** * Further properties: the batch *)
(* ================================================================== *)

(** X8. A depth that is not positive makes the batch empty:
    [range(n)] does not run for [n <= 0], so [read_spectrum] asks the
    device nothing, prints nothing and leaves the averaged spectrum; the
    tick of a capturing session then plots the spectrum it had. *)
Theorem read_spectrum_with_nonpositive_depth :
  forall s : USB2000,
    scans_to_average s <= 0 ->
    read_spectrum s = Returns (set_intensities [] s)
    /\ (capturing s = true -> initialized s = true ->
        update s
        = Returns (set_plot (wavelengths s, averaged_intensities s)
                     (set_intensities [] s))).
Proof.
  intros s Hn.
  assert (H : read_spectrum s = Returns (set_intensities [] s)).
  { unfold read_spectrum, range_length.
    cbn [scans_to_average set_intensities].
    destruct (scans_to_average s) as [|p|p]; try reflexivity.
    exfalso. apply Hn. reflexivity. }
  split; [exact H|].
  intros Hc Hi. unfold update. now rewrite Hc, Hi, H.
Qed.

Lemma read_spectrum_with_nonpositive_depth_witness :
  read_spectrum
    (update_scans_to_average Text.int
       (set_scans_to_average_edit "0" (capturing_session three_pixels [])))
  = Returns
      (set_intensities []
         (update_scans_to_average Text.int
            (set_scans_to_average_edit "0"
               (capturing_session three_pixels [])))).
Proof.
  refine (proj1 (read_spectrum_with_nonpositive_depth
                   (update_scans_to_average Text.int
                      (set_scans_to_average_edit "0"
                         (capturing_session three_pixels []))) _)).
  vm_compute. discriminate.
Defined.

(** X9. The scans of a batch are not kept: after every batch that
    returns, [self.intensities] is empty; a batch that lets
    [ValueError] escape left the averaged spectrum as it was. *)
Theorem read_spectrum_keeps_no_scan :
  forall s : USB2000,
    match read_spectrum s with
    | Returns s' => intensities s' = []
    | Raises e s' =>
        e = ValueError /\ averaged_intensities s' = averaged_intensities s
    end.
Proof.
  intro s. unfold read_spectrum, average. rewrite acquire_loop_eq.
  cbn [intensities set_stdout set_intensities set_spec app].
  destruct (successful _) as [|first rest] eqn:Hs.
  - reflexivity.
  - unfold Numpy.mean_axis0.
    destruct (Numpy.same_shape first rest); [reflexivity|].
    split; reflexivity.
Qed.

(** X10. Only a tick writes the averaged spectrum, and only in
    [Capturing]: every other event leaves it, and a tick in [Idle] or
    [Connected] leaves the whole object as it is. *)
Theorem only_a_capturing_tick_averages :
  forall (int : string -> option Z) (float_str : float -> string)
         (e : event) (s : USB2000),
    (e <> Tick ->
     averaged_intensities (handle int float_str e s) = averaged_intensities s)
    /\ (state s <> Capturing -> handle int float_str Tick s = s).
Proof.
  intros int float_str e s. split.
  - intro He. destruct e as [|found|text|text| | |filename]; simpl.
    + contradiction.
    + destruct (connect_button s); [|reflexivity].
      pose proof (init_spectrometer_cases found s) as H. cbv zeta in H.
      destruct (connects found (integration_time_us s)).
      * apply H.
      * apply H.
    + apply (update_integration_time_wavelengths int
               (set_integration_time_edit text s)).
    + unfold update_scans_to_average. simpl. now destruct (int text).
    + now destruct (start_capture_button s).
    + now destruct (stop_capture_button s).
    + apply (export_data_frame float_str filename s).
  - unfold state, handle, update.
    destruct (initialized s), (capturing s); try reflexivity.
    intro H. now contradiction H.
Qed.

Lemma only_a_capturing_tick_averages_witness :
  handle Text.int decimal_str Tick (connected_session three_pixels [Some scan_a])
  = connected_session three_pixels [Some scan_a].
Proof.
  refine (proj2 (only_a_capturing_tick_averages Text.int decimal_str Tick
                   (connected_session three_pixels [Some scan_a])) _).
  discriminate.
Defined.

(* ================================================================== *)
(** * Further properties: export and the cursor *)
(* ================================================================== *)

Lemma find_filter {A : Type} (p q : A -> bool) (l : list A) :
  (forall x, p x = true -> q x = true) ->
  find p (filter q l) = find p l.
Proof.
  intro H. induction l as [|x l IH]; simpl; [reflexivity|].
  destruct (p x) eqn:Hp.
  - rewrite (H x Hp). simpl. now rewrite Hp.
  - destruct (q x); simpl; [now rewrite Hp|exact IH].
Qed.

Lemma read_file_other (filename other content : string) (s : USB2000) :
  other <> filename ->
  read_file other (write_file filename content s) = read_file other s.
Proof.
  intro Hne. unfold read_file, write_file. simpl.
  assert (Hf : String.eqb filename other = false).
  { apply String.eqb_neq. congruence. }
  rewrite Hf. f_equal. apply find_filter.
  intros [name text] Hx. simpl in *. apply String.eqb_eq in Hx. subst name.
  apply negb_true_iff, String.eqb_neq. exact Hne.
Qed.

(** X11. An export touches the label and the chosen file, and nothing
    else: whether it returns or raises, the wavelengths, the scans, the
    averaged spectrum, the device, the plot, the flags, the buttons and
    the settings are as before, and so is every file but the chosen
    one; without a file name no file changes at all. *)
Theorem export_data_touches_only_the_chosen_file :
  forall (float_str : float -> string) (filename : string) (s : USB2000),
    let s' := state_of (export_data float_str filename s) in
    same_controls s s'
    /\ wavelengths s' = wavelengths s
    /\ averaged_intensities s' = averaged_intensities s
    /\ intensities s' = intensities s
    /\ spec s' = spec s
    /\ plot s' = plot s
    /\ (filename = "" -> files s' = files s)
    /\ forall other, other <> filename ->
         read_file other s' = read_file other s.
Proof.
  intros float_str filename s s'.
  destruct (export_data_frame float_str filename s)
    as (Hw & Hs & Ha & Hi & Hp & _).
  split; [apply export_data_controls|].
  repeat (split; [assumption|]).
  unfold s', export_data. cbn [is_None].
  destruct (String.eqb filename "") eqn:Hname.
  - split; reflexivity.
  - split.
    + intros ->. discriminate Hname.
    + intros other Hne.
      destruct (write_rows _ _ _ _ _) as [f [e|]]; cbn [state_of];
        apply (read_file_other filename other f); exact Hne.
Qed.

Lemma export_data_touches_only_the_chosen_file_witness :
  read_file "notes.txt"
    (state_of (export_data decimal_str "out.csv" (init [("notes.txt", "a")])))
  = read_file "notes.txt" (init [("notes.txt", "a")]).
Proof.
  refine (proj2 (proj2 (proj2 (proj2 (proj2 (proj2 (proj2
            (export_data_touches_only_the_chosen_file decimal_str "out.csv"
               (init [("notes.txt", "a")])))))))) "notes.txt" _).
  discriminate.
Defined.

Section ShortAverage.

Variable float_str : float -> string.

(** The loop of [export_data] when the averaged spectrum is shorter than
    the wavelengths: the rows of the pixels it has are written, then
    [IndexError] is raised. *)
Lemma write_rows_short (ws avg : ndarray) (m k : nat) (f : string) :
  (k + m)%nat = List.length ws ->
  (List.length avg < k + m)%nat ->
  (k <= List.length avg)%nat ->
  Forall plain (map float_str ws) ->
  Forall plain (map float_str avg) ->
  write_rows float_str (seq k m) ws avg f
  = (f ++ file_of_lines
            (map (row float_str) (combine (skipn k ws) (skipn k avg))),
     Some IndexError).
Proof.
  intros Hk Hlen Hle Hws Havg. revert k f Hk Hlen Hle.
  induction m as [|m IH]; intros k f Hk Hlen Hle; simpl.
  - lia.
  - destruct (nth_error ws k) as [w|] eqn:Hw;
      [|apply nth_error_None in Hw; lia].
    destruct (nth_error avg k) as [a|] eqn:Ha.
    + assert (k < List.length avg)%nat
        by (apply nth_error_Some; congruence).
      rewrite IH by lia.
      rewrite (skipn_nth_error ws k w Hw), (skipn_nth_error avg k a Ha).
      rewrite writerow_plain.
      * simpl. unfold row at 2. simpl. now rewrite !append_assoc.
      * rewrite Forall_forall in Hws. apply Hws, in_map.
        eapply nth_error_In; eassumption.
      * rewrite Forall_forall in Havg. apply Havg, in_map.
        eapply nth_error_In; eassumption.
    + apply nth_error_None in Ha.
      rewrite (skipn_all2 avg) by exact Ha.
      rewrite combine_nil. simpl. now rewrite append_empty_r.
Qed.

End ShortAverage.

(** X12. An export of fewer averaged intensities than wavelengths leaves
    a truncated file: [IndexError] escapes at the first pixel that has
    no intensity, and the chosen file then holds the header and the rows
    of the pixels before it, as many as there are intensities. *)
Theorem export_data_with_short_average :
  forall (float_str : float -> string) (filename : string) (s : USB2000),
    filename <> "" ->
    (List.length (averaged_intensities s) < List.length (wavelengths s))%nat ->
    Forall plain (map float_str (wavelengths s)) ->
    Forall plain (map float_str (averaged_intensities s)) ->
    let rows :=
      map (row float_str)
          (combine (wavelengths s) (averaged_intensities s)) in
    export_data float_str filename s
    = Raises IndexError
        (write_file filename (file_of_lines (header :: rows)) s)
    /\ List.length rows = List.length (averaged_intensities s)
    /\ Text.splitlines (file_of_lines (header :: rows)) = header :: rows.
Proof.
  intros float_str filename s Hname Hlen Pws Pavg rows.
  split; [|split].
  - apply String.eqb_neq in Hname.
    unfold export_data.
    change (is_None (intensities s)) with false. cbv iota.
    rewrite Hname.
    rewrite (write_rows_short float_str (wavelengths s)
               (averaged_intensities s) (List.length (wavelengths s)) 0)
      by (assumption || reflexivity || apply Nat.le_0_l).
    change (Csv.writerow ["Wavelength"; "Intensity"])
      with (header ++ Text.CRLF).
    cbn [skipn file_of_lines]. now rewrite append_assoc.
  - unfold rows. rewrite length_map, length_combine. lia.
  - apply splitlines_file_of_lines. constructor; [reflexivity|].
    now apply rows_no_newline.
Qed.

Lemma export_data_with_short_average_witness :
  export_data decimal_str "out.csv"
    (set_averaged_intensities [10.5]%float (connected_session [330; 331]%float []))
  = Raises IndexError
      (write_file "out.csv"
         (file_of_lines
            (header
               :: map (row decimal_str)
                    (combine
                       (wavelengths
                          (set_averaged_intensities [10.5]%float
                             (connected_session [330; 331]%float [])))
                       (averaged_intensities
                          (set_averaged_intensities [10.5]%float
                             (connected_session [330; 331]%float []))))))
         (set_averaged_intensities [10.5]%float
            (connected_session [330; 331]%float []))).
Proof.
  refine (proj1 (export_data_with_short_average decimal_str "out.csv"
                   (set_averaged_intensities [10.5]%float
                      (connected_session [330; 331]%float [])) _ _ _ _)).
  - discriminate.
  - vm_compute. lia.
  - repeat constructor.
  - repeat constructor.
Defined.

(** X13. The cursor never reads past the wavelengths.  [mouse_moved]
    always returns; the vertical line follows the mouse whenever it is
    in the plot; and the object changes in its label only, and only when
    the integer part of the abscissa is an index from 1 to the last one:
    the label then shows the wavelength at that index.  An abscissa
    below 1 shows nothing, the first wavelength is never shown. *)
Theorem mouse_moved_stays_in_range :
  forall (format_2f : float -> string) (inside : bool) (x : Q) (s : USB2000),
    exists s',
      mouse_moved format_2f inside x s
      = (Returns s', if inside then Some x else None)
      /\ s' = set_status_label (status_label s') s
      /\ (s' <> s ->
          inside = true
          /\ 0 < int_of_float x < Z.of_nat (List.length (wavelengths s))
          /\ exists w,
               nth_error (wavelengths s) (Z.to_nat (int_of_float x)) = Some w
               /\ status_label s' = "Wavelength: " ++ format_2f w ++ " nm")
      /\ ((x < 1)%Q -> s' = s).
Proof.
  intros format_2f inside x s. unfold mouse_moved.
  assert (Heta : s = set_status_label (status_label s) s) by now destruct s.
  destruct inside.
  2:{ exists s. repeat split; try assumption; try contradiction. }
  destruct (Z.ltb 0 (int_of_float x)
            && Z.ltb (int_of_float x)
                     (Z.of_nat (List.length (wavelengths s)))) eqn:Hguard.
  2:{ exists s. repeat split; try assumption; try contradiction. }
  apply andb_true_iff in Hguard. destruct Hguard as [Hpos Hlt].
  apply Z.ltb_lt in Hpos, Hlt.
  destruct (nth_error (wavelengths s) (Z.to_nat (int_of_float x)))
    as [w|] eqn:Hw.
  - eexists. split; [reflexivity|]. split; [reflexivity|]. split.
    + intros _. split; [reflexivity|]. split; [lia|].
      exists w. split; reflexivity.
    + intro Hx. exfalso. unfold int_of_float in Hpos.
      unfold Qlt in Hx. simpl in Hx. rewrite Z.mul_1_r in Hx.
      assert (Hq : Z.quot (Qnum x) (Z.pos (Qden x)) <= 0).
      { destruct (Z.le_gt_cases 0 (Qnum x)) as [Hn|Hn].
        - rewrite Z.quot_small by lia. lia.
        - apply Z.quot_le_upper_bound; lia. }
      lia.
  - apply nth_error_None in Hw. lia.
Qed.

(* ================================================================== *)
(** * Further properties: the length of the averaged spectrum *)
(* ================================================================== *)

Lemma successful_in (scan : ndarray) (l : list (option ndarray)) :
  In scan (successful l) -> In (Some scan) l.
Proof.
  induction l as [|[x|] l IH]; simpl; intro H.
  - contradiction.
  - destruct H as [->|H]; [now left|right; now apply IH].
  - right. now apply IH.
Qed.

Lemma successful_lengths (s : USB2000) (d : Spectrometer) (n : nat) :
  spec s = Some d -> calibration d = Some (wavelengths s) -> well_formed d ->
  Forall (fun scan => List.length scan = List.length (wavelengths s))
    (successful (answers s n)).
Proof.
  intros Hd Hcal Hwf. apply Forall_forall. intros scan Hin.
  apply successful_in in Hin. unfold answers in Hin.
  apply in_map_iff in Hin. destruct Hin as (k & Hk & _).
  unfold answer in Hk. rewrite Hd in Hk.
  exact (Hwf _ _ _ Hcal Hk).
Qed.

(** A batch on a well formed device returns, and the averaged spectrum
    is the one before or has the length of the wavelengths. *)
Lemma read_spectrum_calibrated (s : USB2000) (d : Spectrometer) :
  spec s = Some d -> calibration d = Some (wavelengths s) -> well_formed d ->
  exists s',
    read_spectrum s = Returns s'
    /\ (averaged_intensities s' = averaged_intensities s
        \/ List.length (averaged_intensities s')
           = List.length (wavelengths s)).
Proof.
  intros Hd Hcal Hwf.
  pose proof (successful_lengths s d (depth s) Hd Hcal Hwf) as Hlen.
  destruct (successful (answers s (depth s))) as [|first rest] eqn:Hs.
  - eexists. split; [now apply read_spectrum_none|].
    left. rewrite acquire_loop_eq. reflexivity.
  - destruct (read_spectrum_some s _ first rest Hs Hlen) as (m & Hm & Hlm & _).
    eexists. split; [exact Hm|]. right. exact Hlm.
Qed.






Lemma update_averaged (s : USB2000) (d : Spectrometer) :
  spec s = Some d -> calibration d = Some (wavelengths s) -> well_formed d ->
  exists s',
    update s = Returns s'
    /\ (averaged_intensities s' = averaged_intensities s
        \/ (capturing s = true /\ initialized s = true
            /\ List.length (averaged_intensities s')
               = List.length (wavelengths s))).
Proof.
  intros Hd Hcal Hwf. unfold update.
  destruct (capturing s); [|exists s; split; [reflexivity|now left]].
  destruct (initialized s); [|exists s; split; [reflexivity|now left]].
  destruct (read_spectrum_calibrated s d Hd Hcal Hwf) as (s' & Hs' & H).
  rewrite Hs'. eexists. split; [reflexivity|]. cbn.
  destruct H as [H|H]; [now left|right; now repeat split].
Qed.





